(** * Badugi.ai: validation, remix comparison and rendering of indexed pixel art

    A shallow embedding of the Express service in [src/index.js] (SQLite
    variant) and [src/unnamed/part_000] (PostgreSQL variant with remixes).
    Request bodies and stored JSON columns are JavaScript values; handlers
    are functions from a store and a request to a response and a store. *)

From Stdlib Require Import ZArith QArith Qround Lia Ascii String.
From Stdlib Require Import Floats.PrimFloat Floats.SpecFloat Floats.FloatOps.
From Stdlib Require Floats.FloatAxioms.
From stdpp Require Import gmap strings list pretty.

Local Open Scope string_scope.

(** ** Completions: a JavaScript expression returns a value or throws *)

Inductive Result (A : Type) : Type :=
| Ret (a : A)
| Throw (err : string).
Arguments Ret {A} a.
Arguments Throw {A} err.

Definition bind {A B : Type} (m : Result A) (k : A -> Result B) : Result B :=
  match m with
  | Ret a => k a
  | Throw e => Throw e
  end.

Notation "'let*' x ':=' m 'in' k" := (bind m (fun x => k))
  (at level 10, x name, m at level 100, k at level 200).

(** ** JavaScript values as they come out of [JSON.parse]

    A string is its sequence of code units; every character the service
    inspects is ASCII. *)

(** A number is a double.  Comparisons and [Number.isInteger] depend only on
    its exact value, so a finite double is carried as that rational; an
    overflowing literal such as [1e999] parses to an infinity. *)
Inductive Number : Type :=
| Fin (q : Q)
| Inf (negative : bool).

#[warnings="-register-all"]
Inductive JValue : Type :=
| JUndefined
| JNull
| JBool (b : bool)
| JNum (n : Number)
| JStr (s : string)
| JArr (items : list JValue)
| JObj (fields : list (string * JValue)).

Definition Q_is_integer (q : Q) : bool :=
  (Qnum q mod Zpos (Qden q) =? 0)%Z.

(** The integer [Qnum / Qden]; the value itself when [Q_is_integer]. *)
Definition Q_to_Z (q : Q) : Z := (Qnum q / Zpos (Qden q))%Z.

(** [a < b] on finite numbers. *)
Definition Qlt_bool (a b : Q) : bool := negb (Qle_bool b a).

(** [Number.isInteger(v)] *)
Definition Number_isInteger (v : JValue) : bool :=
  match v with
  | JNum (Fin q) => Q_is_integer q
  | _ => false
  end.

(** [Array.isArray(v)] *)
Definition Array_isArray (v : JValue) : bool :=
  match v with
  | JArr _ => true
  | _ => false
  end.

(** [typeof v === 'string'] *)
Definition typeof_string (v : JValue) : bool :=
  match v with
  | JStr _ => true
  | _ => false
  end.

(** ToBoolean: [undefined], [null], [false], zero and the empty string are
    falsy, everything else (arrays and objects included) is truthy. *)
Definition truthy (v : JValue) : bool :=
  match v with
  | JUndefined | JNull => false
  | JBool b => b
  | JNum (Fin q) => negb (Qeq_bool q 0)
  | JNum (Inf _) => true
  | JStr s => negb (String.eqb s "")
  | JArr _ | JObj _ => true
  end.

(** *** Number to string

    The decimal rendering of a number.  For an integer of magnitude up to
    2^53 these are the digits JavaScript prints.  Beyond that magnitude,
    and for a value with a fractional part, JavaScript prints the shortest
    digits that read back as the same double; the rendering here gives the
    digits of the exact value instead (integer part, point, and up to 20
    digits of the expansion), with the same first character.  What is
    proved below of the digits themselves is proved of integers of
    magnitude up to 2^53. *)
Fixpoint frac_digits (fuel : nat) (num den : Z) : string :=
  match fuel with
  | O => ""
  | S fuel' =>
      if (num =? 0)%Z then ""
      else pretty (10 * num / den)%Z +:+ frac_digits fuel' (10 * num mod den)%Z den
  end.

Definition NumberToString (n : Number) : string :=
  match n with
  | Inf false => "Infinity"
  | Inf true => "-Infinity"
  | Fin q =>
      if Q_is_integer q then pretty (Q_to_Z q)
      else
        let a := Z.abs (Qnum q) in
        let d := Zpos (Qden q) in
        (if (Qnum q <? 0)%Z then "-" else "")
          +:+ pretty (a / d)%Z +:+ "." +:+ frac_digits 20 (a mod d)%Z d
  end.

(** *** ToString

    [Array.prototype.join(sep)]: [undefined] and [null] elements give the
    empty string, the others their ToString. *)
Fixpoint join_with (sep : string) (l : list (option string)) : string :=
  match l with
  | [] => ""
  | [x] => default "" x
  | x :: rest => default "" x +:+ sep +:+ join_with sep rest
  end.

Definition has_own (key : string) (fields : list (string * JValue)) : bool :=
  existsb (fun kv => String.eqb (fst kv) key) fields.

(** ToString of a value.  An array is joined with commas.  A parsed object
    inherits [Object.prototype.toString] unless it has an own (never
    callable) [toString] field, in which case the conversion finds no
    primitive and throws a TypeError. *)
Fixpoint ToString (v : JValue) : Result string :=
  match v with
  | JUndefined => Ret "undefined"
  | JNull => Ret "null"
  | JBool true => Ret "true"
  | JBool false => Ret "false"
  | JNum n => Ret (NumberToString n)
  | JStr s => Ret s
  | JArr items =>
      let fix elems (l : list JValue) : Result (list (option string)) :=
        match l with
        | [] => Ret []
        | JUndefined :: rest | JNull :: rest =>
            let* tl := elems rest in Ret (None :: tl)
        | x :: rest =>
            let* s := ToString x in let* tl := elems rest in Ret (Some s :: tl)
        end in
      let* l := elems items in Ret (join_with "," l)
  | JObj fields =>
      if has_own "toString" fields
      then Throw "TypeError: Cannot convert object to primitive value"
      else Ret "[object Object]"
  end.

(** ** Validation helpers *)

Definition is_hex_digit (c : ascii) : bool :=
  let n := nat_of_ascii c in
  ((48 <=? n)%nat && (n <=? 57)%nat) || ((65 <=? n)%nat && (n <=? 70)%nat)
  || ((97 <=? n)%nat && (n <=? 102)%nat).

(** The regular expression [/^#[0-9A-Fa-f]{6}$/] on a string. *)
Definition hex_color_regex (s : string) : bool :=
  match s with
  | String "#" rest =>
      (String.length rest =? 6)%nat && forallb is_hex_digit (list_ascii_of_string rest)
  | _ => false
  end.

(** [/^#[0-9A-Fa-f]{6}$/.test(c)]: [RegExp.prototype.test] converts its
    argument with ToString before matching. *)
Definition regex_test (c : JValue) : Result bool :=
  let* s := ToString c in Ret (hex_color_regex s).

(** [Array.prototype.every]: stops at the first element the callback
    rejects. *)
Fixpoint every {A : Type} (f : A -> Result bool) (l : list A) : Result bool :=
  match l with
  | [] => Ret true
  | x :: rest => let* b := f x in if b then every f rest else Ret false
  end.

Definition validatePalette (palette : JValue) : Result bool :=
  match palette with
  | JArr items =>
      if (length items <? 1)%nat || (256 <? length items)%nat then Ret false
      else every regex_test items
  | _ => Ret false
  end.

(** The test of one grid entry:
    [!Number.isInteger(p) || p < 0 || p >= paletteLength] is false. *)
Definition pixel_ok (paletteLength : Z) (p : JValue) : bool :=
  Number_isInteger p
  && match p with
     | JNum (Fin q) =>
         negb (Qlt_bool q 0) && negb (Qle_bool (inject_Z paletteLength) q)
     | _ => false
     end.

Definition row_ok (size paletteLength : Z) (row : JValue) : bool :=
  match row with
  | JArr entries =>
      (Z.of_nat (length entries) =? size)%Z && forallb (pixel_ok paletteLength) entries
  | _ => false
  end.

Definition validatePixels (pixels : JValue) (size paletteLength : Z) : bool :=
  match pixels with
  | JArr rows =>
      (Z.of_nat (length rows) =? size)%Z && forallb (row_ok size paletteLength) rows
  | _ => false
  end.

(** ** Property access, slices and parseInt *)

(** The index a property key names in an array or string of [len]
    elements: the [i < len] whose canonical decimal rendering is the key. *)
Definition key_index (len : nat) (key : string) : option nat :=
  List.find (fun i => String.eqb (pretty i) key) (seq 0 len).

Definition JNat (n : nat) : JValue := JNum (Fin (inject_Z (Z.of_nat n))).

Fixpoint own_field (key : string) (fields : list (string * JValue)) : JValue :=
  match fields with
  | [] => JUndefined
  | (k, v) :: rest => if String.eqb k key then v else own_field key rest
  end.

(** [o[k]] for a parsed JSON value [o].  Reading a property of [undefined]
    or [null] throws; the key is converted with ToString; an array or string
    answers its indices and [length].  Function-valued members inherited
    from a prototype are not JSON values: such keys read as [undefined]
    here, as every absent key does. *)
Definition get_prop (o k : JValue) : Result JValue :=
  match o with
  | JUndefined | JNull => Throw "TypeError: Cannot read properties of undefined"
  | _ =>
      let* key := ToString k in
      Ret match o with
          | JArr items =>
              match key_index (length items) key with
              | Some i => default JUndefined (items !! i)
              | None =>
                  if String.eqb key "length" then JNat (length items)
                  else JUndefined
              end
          | JStr s =>
              match key_index (String.length s) key with
              | Some i =>
                  match String.get i s with
                  | Some c => JStr (String c EmptyString)
                  | None => JUndefined
                  end
              | None =>
                  if String.eqb key "length" then JNat (String.length s)
                  else JUndefined
              end
          | JObj fields => own_field key fields
          | _ => JUndefined
          end
  end.

(** [v.slice(from, to)] with [0 <= from <= to]: strings and arrays have the
    method; on anything else the call throws a TypeError. *)
Definition slice (v : JValue) (from to : nat) : Result JValue :=
  match v with
  | JStr s => Ret (JStr (String.substring from (to - from) s))
  | JArr items => Ret (JArr (take (to - from) (drop from items)))
  | _ => Throw "TypeError: slice is not a function"
  end.

Definition is_js_space (c : ascii) : bool :=
  let n := nat_of_ascii c in
  ((9 <=? n)%nat && (n <=? 13)%nat) || (n =? 32)%nat || (n =? 160)%nat.

Fixpoint skip_spaces (s : string) : string :=
  match s with
  | String c rest => if is_js_space c then skip_spaces rest else s
  | EmptyString => s
  end.

Definition hex_value (c : ascii) : option Z :=
  let n := nat_of_ascii c in
  if (48 <=? n)%nat && (n <=? 57)%nat then Some (Z.of_nat n - 48)%Z
  else if (65 <=? n)%nat && (n <=? 70)%nat then Some (Z.of_nat n - 55)%Z
  else if (97 <=? n)%nat && (n <=? 102)%nat then Some (Z.of_nat n - 87)%Z
  else None.

(** The value of the longest prefix of hexadecimal digits; [None] when
    there is no digit. *)
Fixpoint hex_prefix (acc : option Z) (s : string) : option Z :=
  match s with
  | String c rest =>
      match hex_value c with
      | Some d => hex_prefix (Some (16 * default 0%Z acc + d)%Z) rest
      | None => acc
      end
  | EmptyString => acc
  end.

(** [parseInt(s, 16)] on a string: leading white space, an optional sign,
    an optional [0x] prefix, then the longest run of hexadecimal digits.
    [None] is NaN. *)
Definition parseInt16_string (s : string) : option Z :=
  let s1 := skip_spaces s in
  let '(neg, s2) :=
    match s1 with
    | String "-" rest => (true, rest)
    | String "+" rest => (false, rest)
    | _ => (false, s1)
    end in
  let s3 :=
    match s2 with
    | String "0" (String "x" rest) | String "0" (String "X" rest) => rest
    | _ => s2
    end in
  match hex_prefix None s3 with
  | Some n => Some (if neg then (- n)%Z else n)
  | None => None
  end.

(** ** Doubles *)

(** The double nearest to an integer (ties to even). *)
Definition Z2float (z : Z) : float :=
  SF2Prim (binary_normalize prec emax z 0 false).

Definition optZ2float (o : option Z) : float :=
  match o with
  | Some z => Z2float z
  | None => nan
  end.

(** [parseInt(v, 16)]: the argument is converted with ToString first. *)
Definition parseInt16 (v : JValue) : Result float :=
  let* s := ToString v in Ret (optZ2float (parseInt16_string s)).

(** [Math.floor] as an integer; [None] for NaN and the infinities, which
    index nothing. *)
Definition Math_floor (f : float) : option Z :=
  match Prim2SF f with
  | S754_zero _ => Some 0%Z
  | S754_finite s m e =>
      let q := (if (0 <=? e)%Z then Z.shiftl (Zpos m) e
                else Z.shiftr (Zpos m) (- e)) in
      let exact := (if (0 <=? e)%Z then true
                    else (Z.land (Zpos m) (Z.ones (- e)) =? 0)%Z) in
      Some (if s then (if exact then (- q)%Z else (- q - 1)%Z) else q)
  | S754_infinity _ | S754_nan => None
  end.

(** [Array.prototype.map] with a callback that may throw. *)
Fixpoint mapM {A B : Type} (f : A -> Result B) (l : list A) : Result (list B) :=
  match l with
  | [] => Ret []
  | x :: rest => let* y := f x in let* ys := mapM f rest in Ret (y :: ys)
  end.

(** ** The stored table *)

Record Row : Type := mkRow {
  author : string;
  title : option string;
  size : Z;
  palette : JValue;
  pixels : JValue;
  created_at : string;
  views : Z;
  remix_of : option string
}.

(** The table [art], keyed by its primary key [id]. *)
Abbreviation Store := (gmap string Row).

(** ** Resolving a pixel to its colour *)

(** [palette[pixels[y][x]]] *)
Definition resolve (palette pixels : JValue) (y x : nat) : Result JValue :=
  let* row := get_prop pixels (JNat y) in
  let* p := get_prop row (JNat x) in
  get_prop palette p.

(** ** ASCII rendering: GET /api/art/:id/ascii *)

Definition newline : string := String (ascii_of_nat 10) EmptyString.

(** [' .:-=+*#%@'.split('')] *)
Definition chars : list string :=
  [" "; "."; ":"; "-"; "="; "+"; "*"; "#"; "%"; "@"].

(** The callback of [palette.map]: the three channels are parsed from
    slices of the entry and averaged, in double arithmetic. *)
Definition color_brightness (hex : JValue) : Result float :=
  let* rs := slice hex 1 3 in
  let* r := parseInt16 rs in
  let* gs := slice hex 3 5 in
  let* g := parseInt16 gs in
  let* bs := slice hex 5 7 in
  let* b := parseInt16 bs in
  Ret ((r + g + b) / (3 * 255))%float.

(** [brightness[p]] as the left operand of [*]: an absent entry is
    [undefined], which converts to NaN. *)
Definition brightness_at (brightness : list float) (p : JValue) : Result float :=
  let* key := ToString p in
  Ret match key_index (length brightness) key with
      | Some i => default nan (brightness !! i)
      | None => if String.eqb key "length"
                then Z2float (Z.of_nat (length brightness)) else nan
      end.

(** [chars[i]] for the number [i]; [None] is [undefined]. *)
Definition char_at (i : option Z) : option string :=
  match i with
  | Some z => if (0 <=? z)%Z then chars !! Z.to_nat z else None
  | None => None
  end.

(** [chars[Math.floor(brightness[p] * (chars.length - 1))]] *)
Definition ascii_char (brightness : list float) (p : JValue)
  : Result (option string) :=
  let* b := brightness_at brightness p in
  Ret (char_at (Math_floor (b * Z2float (Z.of_nat (length chars) - 1))%float)).

Definition ascii_row (brightness : list float) (row : JValue) : Result string :=
  match row with
  | JArr entries =>
      let* cs := mapM (ascii_char brightness) entries in
      Ret (join_with "" cs)
  | _ => Throw "TypeError: row.map is not a function"
  end.

Definition ascii_art (palette pixels : JValue) : Result string :=
  match palette with
  | JArr colors =>
      let* brightness := mapM color_brightness colors in
      match pixels with
      | JArr rows =>
          let* lines := mapM (ascii_row brightness) rows in
          Ret (join_with newline (map Some lines))
      | _ => Throw "TypeError: pixels.map is not a function"
      end
  | _ => Throw "TypeError: palette.map is not a function"
  end.

(** ** SVG rendering: GET /art/:id/image *)

(** [Math.max(1, Math.floor(512 / size))].  For an integer [size >= 1] the
    floor of the double quotient is the integer quotient. *)
Definition svg_scale (size : Z) : Z := Z.max 1 (512 / size).

Definition svg_canvasSize (size : Z) : Z := size * svg_scale size.

Record Rect : Type := mkRect {
  rect_x : Z;
  rect_y : Z;
  rect_width : Z;
  rect_height : Z;
  rect_fill : string
}.

(** One iteration of the inner loop: the colour [palette[pixels[y][x]]] is
    converted to a string by the template literal. *)
Definition svg_rect (size : Z) (palette pixels : JValue) (y x : nat)
  : Result Rect :=
  let* color := resolve palette pixels y x in
  let* fill := ToString color in
  let scale := svg_scale size in
  Ret (mkRect (Z.of_nat x * scale) (Z.of_nat y * scale) scale scale fill).

(** The two nested loops, rows outermost. *)
Definition svg_rects (size : Z) (palette pixels : JValue) : Result (list Rect) :=
  let n := Z.to_nat size in
  let* rows :=
    mapM (fun y => mapM (svg_rect size palette pixels y) (seq 0 n)) (seq 0 n) in
  Ret (concat rows).

Definition dquote : string := String (ascii_of_nat 34) EmptyString.

Definition attr (name value : string) : string :=
  name +:+ "=" +:+ dquote +:+ value +:+ dquote.

Definition render_rect (r : Rect) : string :=
  "<rect " +:+ attr "x" (pretty (rect_x r)) +:+ " "
    +:+ attr "y" (pretty (rect_y r)) +:+ " "
    +:+ attr "width" (pretty (rect_width r)) +:+ " "
    +:+ attr "height" (pretty (rect_height r)) +:+ " "
    +:+ attr "fill" (rect_fill r) +:+ "/>".

Definition svg_title (row : Row) : string :=
  match title row with
  | Some t => if String.eqb t "" then "Untitled" else t
  | None => "Untitled"
  end +:+ " by " +:+ author row.

Definition svg_markup (canvas title : string) (rects : list Rect) : string :=
  "<?xml " +:+ attr "version" "1.0" +:+ " " +:+ attr "encoding" "UTF-8"
  +:+ "?>" +:+ newline
  +:+ "<svg " +:+ attr "xmlns" "http://www.w3.org/2000/svg" +:+ " "
  +:+ attr "width" canvas +:+ " " +:+ attr "height" canvas +:+ " "
  +:+ attr "viewBox" ("0 0 " +:+ canvas +:+ " " +:+ canvas) +:+ ">"
  +:+ newline
  +:+ "  <title>" +:+ title +:+ "</title>" +:+ newline
  +:+ "  " +:+ String.concat "" (map render_rect rects) +:+ newline
  +:+ "</svg>".

Definition svg_document (row : Row) : Result string :=
  let* rects := svg_rects (size row) (palette row) (pixels row) in
  Ret (svg_markup (pretty (svg_canvasSize (size row))) (svg_title row) rects).

(** ** Remix comparison (POST /api/art, PostgreSQL variant) *)

(** [a === b] for two values that come from different JSON documents (the
    stored row and the request body): primitives are compared by value;
    an array or object is only ever identical to itself. *)
Definition strict_eq (a b : JValue) : bool :=
  match a, b with
  | JUndefined, JUndefined => true
  | JNull, JNull => true
  | JBool x, JBool y => Bool.eqb x y
  | JNum (Fin p), JNum (Fin q) => Qeq_bool p q
  | JNum (Inf s), JNum (Inf t) => Bool.eqb s t
  | JStr s, JStr t => String.eqb s t
  | _, _ => false
  end.

Fixpoint foldM {A S : Type} (f : S -> A -> Result S) (s : S) (l : list A)
  : Result S :=
  match l with
  | [] => Ret s
  | x :: rest => let* s' := f s x in foldM f s' rest
  end.

(** The body of the inner loop: [originalColor !== newColor]. *)
Definition cell_changed (originalPalette originalPixels palette pixels : JValue)
    (y x : nat) : Result bool :=
  let* originalColor := resolve originalPalette originalPixels y x in
  let* newColor := resolve palette pixels y x in
  Ret (negb (strict_eq originalColor newColor)).

(** [Math.floor((size * size) * 0.5)]: halving a double is exact, so for an
    integer size this is the integer quotient. *)
Definition maxChanges (size : Z) : Z := (size * size / 2)%Z.

(** The two nested loops counting [changedPixels]. *)
Definition computeChangeRatio
    (originalPalette originalPixels palette pixels : JValue) (size : Z)
  : Result nat :=
  let n := Z.to_nat size in
  foldM (fun changed y =>
    foldM (fun changed x =>
      let* c := cell_changed originalPalette originalPixels palette pixels y x in
      Ret (if c then S changed else changed))
      changed (seq 0 n))
    0%nat (seq 0 n).

(** The two policy tests after the loops; [Some] is the error sent with
    status 400. *)
Definition remix_policy (size : Z) (changedPixels : nat) : option string :=
  if (maxChanges size <? Z.of_nat changedPixels)%Z then
    Some ("Too many pixels changed. Remixes can only modify up to 50% ("
          +:+ pretty (maxChanges size) +:+ " pixels). You changed "
          +:+ pretty changedPixels +:+ ".")
  else if (changedPixels =? 0)%nat then
    Some "No pixels changed. Make some modifications to remix!"
  else None.

(** ** The PostgreSQL driver and the queries by id *)

(** *** [JSON.stringify]

    One code unit inside a JSON string literal: the quote, the backslash
    and the control characters are escaped. *)
Definition hex_digit_char (n : nat) : ascii :=
  default "0"%char (list_ascii_of_string "0123456789abcdef" !! n).

Definition backslash : string := String (ascii_of_nat 92) EmptyString.

Definition json_escape (c : ascii) : string :=
  let n := nat_of_ascii c in
  if (n =? 34)%nat then backslash +:+ dquote
  else if (n =? 92)%nat then backslash +:+ backslash
  else if (n =? 8)%nat then backslash +:+ "b"
  else if (n =? 9)%nat then backslash +:+ "t"
  else if (n =? 10)%nat then backslash +:+ "n"
  else if (n =? 12)%nat then backslash +:+ "f"
  else if (n =? 13)%nat then backslash +:+ "r"
  else if (n <? 32)%nat then
    backslash +:+ "u00"
    +:+ String (hex_digit_char (n / 16))
          (String (hex_digit_char (n mod 16)) EmptyString)
  else String c EmptyString.

Definition json_quote (s : string) : string :=
  dquote +:+ String.concat "" (map json_escape (list_ascii_of_string s)) +:+ dquote.

(** [JSON.stringify(v)] without indentation.  An infinity is written
    [null]; the fields of an object are taken in the order of the list,
    which is the order in which JavaScript enumerates them, and a field
    whose value is [undefined] is left out. *)
Fixpoint JSON_stringify (v : JValue) : string :=
  match v with
  | JUndefined | JNull => "null"
  | JBool true => "true"
  | JBool false => "false"
  | JNum (Inf _) => "null"
  | JNum n => NumberToString n
  | JStr s => json_quote s
  | JArr items => "[" +:+ String.concat "," (map JSON_stringify items) +:+ "]"
  | JObj fields =>
      let fix members (l : list (string * JValue)) : list string :=
        match l with
        | [] => []
        | (_, JUndefined) :: rest => members rest
        | (k, x) :: rest =>
            (json_quote k +:+ ":" +:+ JSON_stringify x) :: members rest
        end in
      "{" +:+ String.concat "," (members fields) +:+ "}"
  end.

(** *** Query parameters

    [escapeElement] of the driver: an element of an array literal is put in
    double quotes, its backslashes and quotes escaped. *)
Definition escapeElement (s : string) : string :=
  dquote
  +:+ String.concat ""
        (map (fun c => if Ascii.eqb c (ascii_of_nat 92) then backslash +:+ backslash
                       else if Ascii.eqb c (ascii_of_nat 34)
                            then backslash +:+ dquote
                            else String c EmptyString)
             (list_ascii_of_string s))
  +:+ dquote.

(** [arrayString] of the driver, on one element: [null] is written NULL,
    an array is written in braces, anything else is prepared as a
    parameter of its own and escaped. *)
Fixpoint array_element (v : JValue) : string :=
  match v with
  | JUndefined | JNull => "NULL"
  | JArr items => "{" +:+ String.concat "," (map array_element items) +:+ "}"
  | JBool true => escapeElement "true"
  | JBool false => escapeElement "false"
  | JNum n => escapeElement (NumberToString n)
  | JStr s => escapeElement s
  | JObj _ => escapeElement (JSON_stringify v)
  end.

(** [prepareValue] of the driver: the text under which a value is sent as
    a query parameter; [None] is SQL NULL.  A string is sent as it is, a
    number or boolean by its [toString], an array as an array literal, an
    object as its JSON text. *)
Definition prepareValue (v : JValue) : option string :=
  match v with
  | JUndefined | JNull => None
  | JBool true => Some "true"
  | JBool false => Some "false"
  | JNum n => Some (NumberToString n)
  | JStr s => Some s
  | JArr _ => Some (array_element v)
  | JObj _ => Some (JSON_stringify v)
  end.

(** PostgreSQL refuses a text value that holds the character of code 0. *)
Definition has_nul (s : string) : bool :=
  existsb (Ascii.eqb Ascii.zero) (list_ascii_of_string s).

(** [SELECT ... FROM art WHERE id = $1] on the PostgreSQL table.  No id of
    the table holds the character of code 0, which the database refuses in
    a text; a parameter that holds it finds no row and makes the query
    fail, so that [pool.query] throws. *)
Definition select_by_id (st : Store) (id : string) : Result (option Row) :=
  match st !! id with
  | Some row => Ret (Some row)
  | None =>
      if has_nul id then Throw "invalid byte sequence for encoding UTF8: 0x00"
      else Ret None
  end.

(** ** Requests and responses *)

Record Body : Type := mkBody {
  body_author : JValue;
  body_title : JValue;
  body_size : JValue;
  body_palette : JValue;
  body_pixels : JValue;
  body_remix_of : JValue
}.

Record ArtJson : Type := mkArtJson {
  art_id : string;
  art_author : string;
  art_title : option string;
  art_size : Z;
  art_palette : JValue;
  art_pixels : JValue;
  art_created_at : string;
  art_views : Z;
  art_remix_of : option string;
  art_original : option (string * string * option string)
}.

(** [remix] of a 201 is the field [remix_of] of the answer, a JSON value. *)
Inductive Response : Type :=
| Ok200Json (art : ArtJson)
| Ok200Text (body : string)
| Created201 (message id : string) (remix : JValue)
| Error400 (error : string)
| Error404
| Error500.

(** What the remix block of the handler did. *)
Inductive RemixStage : Type :=
| Skipped
| ParentQueryFailed
| ParentNotFound
| Compared (changedPixels : Result nat).

(** The parent lookup [SELECT * FROM art WHERE id = $1] with the body's
    [remix_of] as parameter: the driver sends the value as a text, and the
    row whose id is that text, if any, is the parent. *)
Definition find_parent (st : Store) (remix : JValue)
  : Result (option (string * Row)) :=
  match prepareValue remix with
  | None => Ret None
  | Some pid => let* r := select_by_id st pid in Ret (pair pid <$> r)
  end.

(** [if (remix_of) { ... }] up to the end of the loops, after [size] has
    been checked to be 32.  A query that fails throws, and the handler's
    [catch] answers 500. *)
Definition remix_stage (st : Store) (b : Body) : RemixStage :=
  if truthy (body_remix_of b) then
    match find_parent st (body_remix_of b) with
    | Throw _ => ParentQueryFailed
    | Ret None => ParentNotFound
    | Ret (Some (_, originalRow)) =>
        Compared (computeChangeRatio (palette originalRow) (pixels originalRow)
                    (body_palette b) (body_pixels b) 32)
    end
  else Skipped.

Definition js_length (v : JValue) : Z :=
  match v with
  | JArr items => Z.of_nat (length items)
  | JStr s => Z.of_nat (String.length s)
  | _ => 0
  end.

Definition longer_than (n : nat) (v : JValue) : bool :=
  match v with
  | JStr s => (n <? String.length s)%nat
  | _ => false
  end.

(** [size !== 32] is false. *)
Definition is_32 (v : JValue) : bool :=
  match v with
  | JNum (Fin q) => Qeq_bool q 32
  | _ => false
  end.

(** [title || null] as stored: the title has been checked to be a string
    or falsy. *)
Definition or_null (v : JValue) : option string :=
  match v with
  | JStr s => if truthy v then Some s else None
  | _ => None
  end.

(** The checks before the remix block; [Some] is the response that ends
    the request. *)
Definition structural_checks (b : Body) : option Response :=
  if negb (truthy (body_author b)) || negb (typeof_string (body_author b))
     || longer_than 64 (body_author b)
  then Some (Error400 "Invalid author (string, max 64 chars)")
  else if truthy (body_title b)
          && (negb (typeof_string (body_title b)) || longer_than 128 (body_title b))
  then Some (Error400 "Invalid title (string, max 128 chars)")
  else if negb (is_32 (body_size b))
  then Some (Error400 "Size must be 32 (32x32 pixels)")
  else
    match validatePalette (body_palette b) with
    | Throw _ => Some Error500
    | Ret false =>
        Some (Error400 "Invalid palette. Must be array of 1-256 hex colors (#RRGGBB)")
    | Ret true =>
        if negb (validatePixels (body_pixels b) 32 (js_length (body_palette b)))
        then Some (Error400 "Invalid pixels. Must be 32x32 array of palette indices")
        else None
    end.

Definition string_of (v : JValue) : string :=
  match v with
  | JStr s => s
  | _ => ""
  end.

(** [remix_of || null] as a parameter of the INSERT: the text the driver
    sends for a truthy value, NULL otherwise. *)
Definition remix_param (v : JValue) : option string :=
  if truthy v then prepareValue v else None.

(** [remix_of || null] as a field of the 201 answer. *)
Definition or_null_value (v : JValue) : JValue :=
  if truthy v then v else JNull.

(** The row of the INSERT: [views] takes its default 0 and [created_at]
    the time of the insertion. *)
Definition new_row (b : Body) (now : string) : Row :=
  mkRow (string_of (body_author b)) (or_null (body_title b)) 32
        (body_palette b) (body_pixels b) now 0 (remix_param (body_remix_of b)).

(** The INSERT and the 201 response.  [id] is the UUID drawn for the new
    row; a duplicate primary key or a text the database refuses makes the
    statement fail, which the handler answers with 500.  When the remix
    block has run, [remix_of] is sent as the text under which the parent
    row was found.  The messages are given without their trailing emoji. *)
Definition insert_art (st : Store) (b : Body) (id now : string)
  : Response * Store :=
  match st !! id with
  | Some _ => (Error500, st)
  | None =>
      if has_nul (string_of (body_author b))
         || has_nul (default "" (or_null (body_title b)))
      then (Error500, st)
      else
        (Created201 (if truthy (body_remix_of b)
                     then "Remix published!" else "Art created!")
                    id (or_null_value (body_remix_of b)),
         <[id := new_row b now]> st)
  end.

(** POST /api/art *)
Definition post_api_art (st : Store) (b : Body) (id now : string)
  : Response * Store :=
  match structural_checks b with
  | Some r => (r, st)
  | None =>
      match remix_stage st b with
      | Skipped => insert_art st b id now
      | ParentQueryFailed => (Error500, st)
      | ParentNotFound => (Error400 "Original art not found for remix", st)
      | Compared (Throw _) => (Error500, st)
      | Compared (Ret changedPixels) =>
          match remix_policy 32 changedPixels with
          | Some err => (Error400 err, st)
          | None => insert_art st b id now
          end
      end
  end.

(** ** Reading handlers *)

Definition int4_max : Z := 2147483647.

(** [UPDATE art SET views = views + 1] on one row. *)
Definition increment_views (r : Row) : Row :=
  mkRow (author r) (title r) (size r) (palette r) (pixels r) (created_at r)
        (views r + 1) (remix_of r).

(** GET /api/art/:id, PostgreSQL variant: [views] is an INTEGER column, so
    the UPDATE fails (and the handler answers 500) when the increment
    leaves its range.  The parameter of the second SELECT is the stored
    [remix_of], a text of the table.  The list [remixes] of the response, a
    further read-only query, is left out. *)
Definition get_api_art_id (st : Store) (id : string) : Response * Store :=
  match select_by_id st id with
  | Throw _ => (Error500, st)
  | Ret None => (Error404, st)
  | Ret (Some row) =>
      if (int4_max <? views row + 1)%Z then (Error500, st)
      else
        let st' := alter increment_views id st in
        let original :=
          pid ← remix_of row;
          if String.eqb pid "" then None
          else o ← st' !! pid; Some (pid, author o, title o) in
        (Ok200Json (mkArtJson id (author row) (title row) (size row)
                      (palette row) (pixels row) (created_at row)
                      (views row + 1)
                      (match remix_of row with
                       | Some pid => if String.eqb pid "" then None else Some pid
                       | None => None
                       end) original),
         st')
  end.

(** GET /api/art/:id/ascii, PostgreSQL variant *)
Definition get_api_art_id_ascii (st : Store) (id : string) : Response * Store :=
  match select_by_id st id with
  | Throw _ => (Error500, st)
  | Ret None => (Error404, st)
  | Ret (Some row) =>
      match ascii_art (palette row) (pixels row) with
      | Ret text => (Ok200Text text, st)
      | Throw _ => (Error500, st)
      end
  end.

(** GET /art/:id/image, PostgreSQL variant *)
Definition get_art_id_image (st : Store) (id : string) : Response * Store :=
  match select_by_id st id with
  | Throw _ => (Error500, st)
  | Ret None => (Error404, st)
  | Ret (Some row) =>
      match svg_document row with
      | Ret svg => (Ok200Text svg, st)
      | Throw _ => (Error500, st)
      end
  end.

(** *** The reading handlers of [src/index.js] (SQLite variants)

    The columns [palette] and [pixels] hold the text [JSON.stringify]
    wrote at the INSERT and [JSON.parse] reads it back: a row carries the
    value itself.  SQLite compares any text, so the SELECT does not fail;
    an exception in a handler is answered with 500 by Express. *)

(** The double nearest to an integer (of magnitude below 2^1024, where
    the doubles end), as an integer: 53 significant bits are kept, a tie
    goes to the even neighbour. *)
Definition double_round (z : Z) : Z :=
  let a := Z.abs z in
  let e := (Z.log2 a - 52)%Z in
  if (e <=? 0)%Z then z
  else
    let q := (a / 2 ^ e)%Z in
    let r := (a mod 2 ^ e)%Z in
    let half := (2 ^ (e - 1))%Z in
    let up := if (r <? half)%Z then false
              else if (half <? r)%Z then true
              else Z.odd q in
    (Z.sgn z * ((if up then q + 1 else q) * 2 ^ e))%Z.





(** GET /api/art/:id/ascii *)
Definition get_api_art_id_ascii_sqlite (st : Store) (id : string)
  : Response * Store :=
  match st !! id with
  | None => (Error404, st)
  | Some row =>
      match ascii_art (palette row) (pixels row) with
      | Ret text => (Ok200Text text, st)
      | Throw _ => (Error500, st)
      end
  end.


(** ** What the specification calls well formed *)

Definition hex_digits : list ascii :=
  list_ascii_of_string "0123456789abcdefABCDEF".

Definition HexDigit (c : ascii) : Prop := In c hex_digits.

(** ['#'] followed by six hexadecimal digits of either case. *)
Definition HexColor (s : string) : Prop :=
  exists ds : list ascii,
    s = String "#" (string_of_list_ascii ds)
    /\ length ds = 6%nat /\ Forall HexDigit ds.

(** A palette: a sequence of 1 to 256 colour strings. *)
Definition PaletteSpec (v : JValue) (colors : list string) : Prop :=
  v = JArr (map JStr colors)
  /\ (1 <= length colors <= 256)%nat /\ Forall HexColor colors.

(** An integer in the half-open range [0, paletteLength). *)
Definition IsIndex (paletteLength : Z) (v : JValue) : Prop :=
  exists (q : Q) (k : Z),
    v = JNum (Fin q) /\ q == inject_Z k /\ (0 <= k < paletteLength)%Z.

(** A grid of exactly [size] rows of exactly [size] palette indices. *)
Definition GridSpec (v : JValue) (size paletteLength : Z) : Prop :=
  exists rows : list JValue,
    v = JArr rows /\ Z.of_nat (length rows) = size
    /\ Forall (fun row => exists entries : list JValue,
                 row = JArr entries /\ Z.of_nat (length entries) = size
                 /\ Forall (IsIndex paletteLength) entries) rows.

(** The value of a hexadecimal digit, read off the table of digits. *)
Definition hex_table : list (ascii * Z) :=
  [("0"%char, 0); ("1"%char, 1); ("2"%char, 2); ("3"%char, 3); ("4"%char, 4);
   ("5"%char, 5); ("6"%char, 6); ("7"%char, 7); ("8"%char, 8); ("9"%char, 9);
   ("a"%char, 10); ("b"%char, 11); ("c"%char, 12); ("d"%char, 13);
   ("e"%char, 14); ("f"%char, 15);
   ("A"%char, 10); ("B"%char, 11); ("C"%char, 12); ("D"%char, 13);
   ("E"%char, 14); ("F"%char, 15)]%Z.

Definition digit_value (c : ascii) : option Z :=
  snd <$> List.find (fun e => Ascii.eqb (fst e) c) hex_table.

(** An 8-bit channel written as two hexadecimal digits. *)
Definition channel (hi lo : ascii) : option Z :=
  h ← digit_value hi; l ← digit_value lo; Some (16 * h + l)%Z.

(** The channels R, G and B of a colour string [#RRGGBB]. *)
Definition rgb_channels (s : string) : option (Z * Z * Z) :=
  match s with
  | String "#" (String r1 (String r2 (String g1 (String g2
      (String b1 (String b2 EmptyString)))))) =>
      r ← channel r1 r2; g ← channel g1 g2; b ← channel b1 b2; Some (r, g, b)
  | _ => None
  end.

(** The 24-bit RGB value of a colour string. *)
Definition rgb_value (s : string) : option Z :=
  '(r, g, b) ← rgb_channels s; Some (65536 * r + 256 * g + b)%Z.

(** The ramp index of the specification, in exact arithmetic:
    floor (brightness * (rampLength - 1)) with
    brightness = (R + G + B) / (3 * 255). *)
Definition spec_ramp_index (r g b : Z) : Z :=
  Qfloor (inject_Z (r + g + b) / (3 * 255) * (inject_Z (Z.of_nat (length chars)) - 1)).

(** A stored artwork as the specification's data model has it. *)
Definition ArtworkSpec (size : Z) (palette pixels : JValue) (colors : list string)
  : Prop :=
  PaletteSpec palette colors
  /\ GridSpec pixels size (Z.of_nat (length colors)).

(** The palette index a grid entry denotes. *)
Definition pixel_index (v : JValue) : nat :=
  match v with
  | JNum (Fin q) => Z.to_nat (Q_to_Z q)
  | _ => 0
  end.

(** A rendered line: [size] characters, each one of the ramp. *)
Definition RampLine (size : Z) (line : string) : Prop :=
  Z.of_nat (String.length line) = size
  /\ Forall (fun c => In (String c EmptyString) chars) (list_ascii_of_string line).

(** The brightness of a colour string as the handler computes it. *)
Definition brightness_of (s : string) : float :=
  match rgb_channels s with
  | Some (r, g, b) => ((Z2float r + Z2float g + Z2float b) / (3 * 255))%float
  | None => nan
  end.

(** The character the specification assigns to a grid entry. *)
Definition pixel_char (colors : list string) (p : JValue) : option string :=
  c ← colors !! pixel_index p;
  '(r, g, b) ← rgb_channels c;
  chars !! Z.to_nat (spec_ramp_index r g b).

(** The artwork of the specification's concrete scenario. *)
Definition example_colors : list string := ["#000000"; "#FFFFFF"].
Definition example_palette : JValue := JArr (map JStr example_colors).
Definition example_pixels : JValue :=
  JArr [JArr [JNat 0; JNat 1]; JArr [JNat 1; JNat 0]].

(** The entry of a grid at row [y], column [x]. *)
Definition cell (pix : JValue) (y x : nat) : JValue :=
  match pix with
  | JArr rows =>
      match rows !! y with
      | Some (JArr entries) => default JUndefined (entries !! x)
      | _ => JUndefined
      end
  | _ => JUndefined
  end.

(** The colour a pixel resolves to: its index looked up in the palette. *)
Definition resolved_color (colors : list string) (pix : JValue) (y x : nat)
  : option string :=
  colors !! pixel_index (cell pix y x).


(** The resolved colours of a cell differ, as strings. *)
Definition differs (ocolors colors : list string) (opix pix : JValue)
    (y x : nat) : bool :=
  negb (bool_decide (resolved_color ocolors opix y x = resolved_color colors pix y x)).

(** The number of cells of an [n] by [n] grid whose resolved colours
    differ. *)
Definition changed_cells (ocolors colors : list string) (opix pix : JValue)
    (n : nat) : nat :=
  sum_list (map (fun y => length (List.filter (differs ocolors colors opix pix y)
                                               (seq 0 n)))
                (seq 0 n)).

(** The number of cells of an [n] by [n] grid whose resolved colours
    differ as 24-bit RGB values. *)
Definition rgb_differs (ocolors colors : list string) (opix pix : JValue)
    (y x : nat) : bool :=
  negb (bool_decide (resolved_color ocolors opix y x ≫= rgb_value
                     = resolved_color colors pix y x ≫= rgb_value)).

Definition rgb_changed_cells (ocolors colors : list string) (opix pix : JValue)
    (n : nat) : nat :=
  sum_list (map (fun y => length (List.filter (rgb_differs ocolors colors opix pix y)
                                               (seq 0 n)))
                (seq 0 n)).

(** *** The texts of the two renderings *)

(** The line break between two lines of the ASCII text. *)
Definition line_break : string := String "010"%char EmptyString.

(** The characters of the ramp, darkest first. *)
Definition ramp : string := " .:-=+*#%@".

(** A text consists of characters of the ramp. *)
Definition RampText (s : string) : Prop :=
  Forall (fun c => In c (list_ascii_of_string ramp)) (list_ascii_of_string s).

(** An attribute value between double quotes. *)
Definition quoted (s : string) : string :=
  String "034"%char (s +:+ String "034"%char EmptyString).







(** ** Example artworks of side 32 *)

Definition row_of (k : nat) : JValue := JArr (replicate 32 (JNat k)).

(** Every pixel at index 0. *)
Definition zero_grid : JValue := JArr (replicate 32 (row_of 0)).

(** The upper 16 rows at index 1, the lower 16 rows at index 0: exactly
    512 pixels differ from [zero_grid]. *)
Definition half_grid : JValue :=
  JArr (replicate 16 (row_of 1) ++ replicate 16 (row_of 0)).

Definition upper_palette : JValue := JArr [JStr "#FFFFFF"].
Definition lower_palette : JValue := JArr [JStr "#ffffff"].

Definition original_row : Row :=
  mkRow "Agent" None 32 example_palette zero_grid "2026-01-31T00:00:00" 5 None.

Definition white_row : Row :=
  mkRow "Agent" None 32 upper_palette zero_grid "2026-01-31T00:00:00" 0 None.

Definition example_store : Store :=
  <["orig" := original_row]> (<["white" := white_row]> ∅).

(** A remix of ["orig"] changing exactly half of the pixels. *)
Definition half_remix : Body :=
  mkBody (JStr "Sudd") JNull (JNat 32) example_palette half_grid (JStr "orig").

(** A remix of ["white"] with the same grid and the same colour, written in
    lower case. *)
Definition lower_case_remix : Body :=
  mkBody (JStr "Sudd") JNull (JNat 32) lower_palette zero_grid (JStr "white").

(** A submission without an author. *)
Definition anonymous_body : Body :=
  mkBody JUndefined JNull (JNat 32) example_palette zero_grid JUndefined.

(** The response is a 201. *)
Definition is_created (r : Response) : bool :=
  match r with
  | Created201 _ _ _ => true
  | _ => false
  end.

(** A submission whose palette holds an array instead of a colour string. *)
Definition nested_palette : JValue := JArr [JArr [JStr "#000000"]].

Definition nested_body : Body :=
  mkBody (JStr "Sudd") JNull (JNat 32) nested_palette zero_grid JUndefined.

(** ** The creation handlers of [src/index.js] (SQLite variants) *)

(** [const validSizes = [8, 16, 32, 64]] *)
Definition validSizes : list Q := [8; 16; 32; 64]%Q.

(** [validSizes.includes(size)]: the argument is found only if it is a
    number equal to an element. *)
Definition includes_size (v : JValue) : bool :=
  match v with
  | JNum (Fin q) => existsb (Qeq_bool q) validSizes
  | _ => false
  end.

(** The integer a size that passed the check stands for. *)
Definition size_number (v : JValue) : Z :=
  match v with
  | JNum (Fin q) => Q_to_Z q
  | _ => 0
  end.

(** The checks of the variant that allows four canvas sizes. *)
Definition structural_checks_sizes (b : Body) : option Response :=
  if negb (truthy (body_author b)) || negb (typeof_string (body_author b))
     || longer_than 64 (body_author b)
  then Some (Error400 "Invalid author (string, max 64 chars)")
  else if truthy (body_title b)
          && (negb (typeof_string (body_title b)) || longer_than 128 (body_title b))
  then Some (Error400 "Invalid title (string, max 128 chars)")
  else if negb (includes_size (body_size b))
  then Some (Error400 "Invalid size. Must be one of: 8, 16, 32, 64")
  else
    match validatePalette (body_palette b) with
    | Throw _ => Some Error500
    | Ret false =>
        Some (Error400 "Invalid palette. Must be array of 1-256 hex colors (#RRGGBB)")
    | Ret true =>
        let size := size_number (body_size b) in
        if negb (validatePixels (body_pixels b) size (js_length (body_palette b)))
        then Some (Error400 ("Invalid pixels. Must be " +:+ pretty size +:+ "x"
                             +:+ pretty size +:+ " array of palette indices"))
        else None
    end.

(** The INSERT of the SQLite variants: the table has no [remix_of] column;
    a duplicate primary key makes the statement throw, which Express
    answers with 500. *)
Definition insert_art_sqlite (st : Store) (b : Body) (size : Z) (id now : string)
  : Response * Store :=
  match st !! id with
  | Some _ => (Error500, st)
  | None =>
      (Created201 "Art created!" id JNull,
       <[id := mkRow (string_of (body_author b)) (or_null (body_title b)) size
                     (body_palette b) (body_pixels b) now 0 None]> st)
  end.

(** POST /api/art of the first variant (size 32 only). *)
Definition post_api_art_sqlite (st : Store) (b : Body) (id now : string)
  : Response * Store :=
  match structural_checks b with
  | Some r => (r, st)
  | None => insert_art_sqlite st b 32 id now
  end.

(** POST /api/art of the second variant (sizes 8, 16, 32 and 64). *)
Definition post_api_art_sizes (st : Store) (b : Body) (id now : string)
  : Response * Store :=
  match structural_checks_sizes b with
  | Some r => (r, st)
  | None => insert_art_sqlite st b (size_number (body_size b)) id now
  end.

(** ** Sequences of requests (PostgreSQL variant) *)

Inductive Request : Type :=
| ReqCreate (b : Body) (id now : string)
| ReqFetch (id : string)
| ReqAscii (id : string)
| ReqImage (id : string).

Definition handle (st : Store) (r : Request) : Response * Store :=
  match r with
  | ReqCreate b id now => post_api_art st b id now
  | ReqFetch id => get_api_art_id st id
  | ReqAscii id => get_api_art_id_ascii st id
  | ReqImage id => get_art_id_image st id
  end.

(** The table after a sequence of requests. *)
Definition run (st : Store) (rs : list Request) : Store :=
  fold_left (fun s r => snd (handle s r)) rs st.

(** ** Notions for the further properties *)

(** The conversion of the elements of an array before they are joined. *)
Fixpoint elems_of (l : list JValue) : Result (list (option string)) :=
  match l with
  | [] => Ret []
  | JUndefined :: rest | JNull :: rest =>
      let* tl := elems_of rest in Ret (None :: tl)
  | x :: rest =>
      let* s := ToString x in let* tl := elems_of rest in Ret (Some s :: tl)
  end.

(** A colour string, possibly wrapped in one-element arrays. *)
Inductive ColorLike : JValue -> Prop :=
| ColorLike_string (s : string) : HexColor s -> ColorLike (JStr s)
| ColorLike_wrapped (v : JValue) : ColorLike v -> ColorLike (JArr [v]).

(** What the creation handler guarantees of a row it stores. *)
Definition RowValid (r : Row) : Prop :=
  size r = 32%Z
  /\ validatePalette (palette r) = Ret true
  /\ validatePixels (pixels r) 32 (js_length (palette r)) = true
  /\ (0 <= views r <= int4_max)%Z
  /\ (1 <= String.length (author r) <= 64)%nat
  /\ match title r with
     | Some t => (1 <= String.length t <= 128)%nat
     | None => True
     end.

(** Every row is valid and every remix points, by a non-empty id, to a
    row of the table other than itself. *)
Definition StoreValid (st : Store) : Prop :=
  forall (id : string) (row : Row),
    st !! id = Some row ->
    RowValid row
    /\ forall pid : string,
         remix_of row = Some pid ->
         pid <> "" /\ pid <> id /\ is_Some (st !! pid).


(** A submission whose palette holds an object with an own [toString]
    field, which cannot be converted to a string. *)
Definition throwing_body : Body :=
  mkBody (JStr "Sudd") JNull (JNat 32)
         (JArr [JObj [("toString", JNat 1)]]) zero_grid JUndefined.

(** A remix of ["orig"] that changes nothing. *)
Definition same_remix : Body :=
  mkBody (JStr "Sudd") JNull (JNat 32) example_palette zero_grid (JStr "orig").

(** A remix of the artwork stored from [nested_body] under the id "new". *)
Definition nested_remix : Body :=
  mkBody (JStr "Sudd") JNull (JNat 32) example_palette zero_grid (JStr "new").

(** The submission of the all-black artwork, and the table after it was
    stored as "orig" and remixed as "new". *)
Definition original_body : Body :=
  mkBody (JStr "Agent") JNull (JNat 32) example_palette zero_grid JUndefined.

Definition remixed_store : Store :=
  run ∅ [ReqCreate original_body "orig" "t0"; ReqCreate half_remix "new" "t1"].

(** A remix of ["white"] that recolours the one pixel at the top left and
    writes the white entry in lower case. *)
Definition one_pixel_grid : JValue :=
  JArr (JArr (JNat 1 :: replicate 31 (JNat 0)) :: replicate 31 (row_of 0)).

Definition recased_palette : JValue := JArr [JStr "#ffffff"; JStr "#000000"].

Definition recased_remix : Body :=
  mkBody (JStr "Sudd") JNull (JNat 32) recased_palette one_pixel_grid (JStr "white").

(** Remixes whose parent is named by a text holding the character of code
    0, by an id that is not stored, and by a number. *)
Definition nul_remix : Body :=
  mkBody (JStr "Sudd") JNull (JNat 32) example_palette half_grid
         (JStr (String Ascii.zero "orig")).

Definition orphan_remix : Body :=
  mkBody (JStr "Sudd") JNull (JNat 32) example_palette half_grid (JStr "gone").

Definition numbered_remix : Body :=
  mkBody (JStr "Sudd") JNull (JNat 32) example_palette half_grid (JNat 7).

Definition numbered_store : Store := <["7" := original_row]> ∅.





(** * Properties *)

(** ** Validator *)

Lemma is_hex_digit_existsb (c : ascii) :
  is_hex_digit c = existsb (Ascii.eqb c) hex_digits.
Proof.
  destruct c as [b0 b1 b2 b3 b4 b5 b6 b7].
  destruct b0, b1, b2, b3, b4, b5, b6, b7; reflexivity.
Qed.

Lemma is_hex_digit_spec (c : ascii) : is_hex_digit c = true <-> HexDigit c.
Proof.
  rewrite is_hex_digit_existsb. unfold HexDigit. rewrite existsb_exists.
  split.
  - intros [d [Hin Heq]]. apply Ascii.eqb_eq in Heq. now subst.
  - intros Hin. exists c. split; [assumption | apply Ascii.eqb_refl].
Qed.

Lemma hex_color_regex_spec (s : string) :
  hex_color_regex s = true <-> HexColor s.
Proof.
  unfold hex_color_regex, HexColor. split.
  - destruct s as [|c rest]; [discriminate|].
    destruct (Ascii.eqb_spec c "#"%char) as [->|Hne].
    + intros H. apply andb_prop in H as [Hlen Hall].
      exists (list_ascii_of_string rest).
      rewrite string_of_list_ascii_of_string. split; [reflexivity|].
      split.
      * apply Nat.eqb_eq in Hlen. rewrite <- Hlen. clear.
        induction rest; simpl; congruence.
      * apply Forall_forall. intros d Hd. apply is_hex_digit_spec.
        rewrite forallb_forall in Hall. apply Hall.
        now apply list_elem_of_In.
    + intros H. exfalso. apply Hne.
      destruct c as [b0 b1 b2 b3 b4 b5 b6 b7].
      destruct b0, b1, b2, b3, b4, b5, b6, b7; try discriminate H. reflexivity.
  - intros [ds [-> [Hlen Hall]]]. apply andb_true_intro. split.
    + apply Nat.eqb_eq. rewrite <- Hlen. clear.
      induction ds; simpl; congruence.
    + rewrite list_ascii_of_string_of_list_ascii. apply forallb_forall.
      intros d Hd. apply is_hex_digit_spec.
      rewrite Forall_forall in Hall. apply Hall. now apply list_elem_of_In.
Qed.

Lemma every_strings (cols : list string) :
  every regex_test (map JStr cols) = Ret (forallb hex_color_regex cols).
Proof.
  induction cols as [|c cols IH]; [reflexivity|].
  simpl. destruct (hex_color_regex c); [exact IH | reflexivity].
Qed.

(** On a sequence of strings the validator is the specified predicate: it
    returns, and returns true exactly for 1 to 256 colour strings. *)
Theorem validatePalette_strings (cols : list string) :
  (exists b, validatePalette (JArr (map JStr cols)) = Ret b)
  /\ (validatePalette (JArr (map JStr cols)) = Ret true
      <-> (1 <= length cols <= 256)%nat /\ Forall HexColor cols).
Proof.
  unfold validatePalette. rewrite length_map, every_strings.
  destruct (Nat.ltb_spec (length cols) 1) as [H1|H1];
    destruct (Nat.ltb_spec 256 (length cols)) as [H2|H2]; simpl;
    (split; [eexists; reflexivity|]); split;
    try (intros H; discriminate H); try (intros [Hl _]; lia).
  - intros H. injection H as H. split; [lia|].
    apply Forall_forall. intros c Hc. apply hex_color_regex_spec.
    rewrite forallb_forall in H. apply H. now apply list_elem_of_In.
  - intros [_ Hall]. f_equal. apply forallb_forall. intros c Hc.
    apply hex_color_regex_spec. rewrite Forall_forall in Hall.
    apply Hall. now apply list_elem_of_In.
Qed.

(** Anything that is not an array is rejected. *)
Lemma validatePalette_not_array (v : JValue) :
  Array_isArray v = false -> validatePalette v = Ret false.
Proof. destruct v; simpl; intros H; try reflexivity; discriminate H. Qed.

(** C3 (the code departs from the claim): a palette whose only element is
    the array [["#000000"]], not a colour string, is accepted, because
    [RegExp.prototype.test] converts the element to the string "#000000"
    before matching; it is no sequence of colour strings. *)
Theorem validatePalette_accepts_nested_array :
  validatePalette nested_palette = Ret true
  /\ ~ (exists colors : list string, PaletteSpec nested_palette colors).
Proof.
  split; [reflexivity|]. intros [colors [H _]]. unfold nested_palette in H.
  destruct colors as [|c colors]; discriminate H.
Qed.

(** The rejections the specification lists: the empty palette, a palette
    of 257 entries, and one holding "#GGGGGG". *)
Lemma validatePalette_rejections (cols : list string) :
  validatePalette (JArr []) = Ret false
  /\ (length cols = 257%nat -> validatePalette (JArr (map JStr cols)) = Ret false)
  /\ (In "#GGGGGG" cols -> validatePalette (JArr (map JStr cols)) = Ret false).
Proof.
  split; [reflexivity|].
  destruct (validatePalette_strings cols) as [[b Hb] Hiff]. split.
  - intros Hlen. destruct b; [|exact Hb].
    apply Hiff in Hb as [Hl _]. lia.
  - intros Hin. destruct b; [|exact Hb].
    apply Hiff in Hb as [_ Hall]. rewrite Forall_forall in Hall.
    apply list_elem_of_In, Hall, hex_color_regex_spec in Hin. discriminate Hin.
Qed.

Lemma Q_is_integer_spec (q : Q) :
  Q_is_integer q = true <-> exists k : Z, q == inject_Z k.
Proof.
  unfold Q_is_integer, Qeq. simpl. rewrite Z.eqb_eq. split.
  - intros H. exists (Qnum q / Zpos (Qden q))%Z.
    rewrite Z.mul_1_r. apply Z.div_exact in H; [|lia]. lia.
  - intros [k Hk]. rewrite Z.mul_1_r in Hk. rewrite Hk.
    apply Z.mod_mul. lia.
Qed.

Lemma Q_to_Z_inject (q : Q) (k : Z) : q == inject_Z k -> Q_to_Z q = k.
Proof.
  unfold Q_to_Z, Qeq. simpl. rewrite Z.mul_1_r. intros ->.
  apply Z.div_mul. lia.
Qed.

Lemma pixel_ok_spec (len : Z) (v : JValue) :
  pixel_ok len v = true <-> IsIndex len v.
Proof.
  unfold IsIndex. split.
  - destruct v as [| | |[q|]| | |]; simpl; try discriminate.
    intros H. apply andb_prop in H as [Hint H]. apply andb_prop in H as [Hlo Hhi].
    apply Q_is_integer_spec in Hint as [k Hk]. exists q, k.
    split; [reflexivity|]. split; [exact Hk|].
    unfold Qlt_bool in Hlo. rewrite negb_involutive in Hlo.
    apply Qle_bool_iff in Hlo. apply negb_true_iff in Hhi.
    assert (Hlt : ~ (inject_Z len <= q)%Q).
    { intros Hle. apply Qle_bool_iff in Hle. congruence. }
    rewrite Hk in Hlo, Hlt. change 0%Q with (inject_Z 0) in Hlo.
    rewrite <- Zle_Qle in Hlo. rewrite <- Zle_Qle in Hlt. lia.
  - intros [q [k [-> [Hk [Hlo Hhi]]]]]. simpl.
    apply andb_true_intro. split; [|apply andb_true_intro; split].
    + apply Q_is_integer_spec. now exists k.
    + unfold Qlt_bool. rewrite negb_involutive. apply Qle_bool_iff.
      rewrite Hk. change 0%Q with (inject_Z 0). now rewrite <- Zle_Qle.
    + apply negb_true_iff. destruct (Qle_bool (inject_Z len) q) eqn:E;
        [|reflexivity].
      apply Qle_bool_iff in E. rewrite Hk, <- Zle_Qle in E. lia.
Qed.

Lemma forallb_Forall_iff {A : Type} (f : A -> bool) (P : A -> Prop) (l : list A) :
  (forall x, f x = true <-> P x) -> forallb f l = true <-> Forall P l.
Proof.
  intros Hf. induction l as [|x l IH]; simpl.
  - split; [constructor | reflexivity].
  - rewrite andb_true_iff, IH, Hf. split.
    + intros [Hx Hl]. now constructor.
    + intros H. inversion H; subst. now split.
Qed.

Lemma row_ok_spec (size len : Z) (row : JValue) :
  row_ok size len row = true
  <-> exists entries : list JValue,
        row = JArr entries /\ Z.of_nat (length entries) = size
        /\ Forall (IsIndex len) entries.
Proof.
  split.
  - destruct row as [| | | | |entries|]; simpl; try discriminate.
    intros H. apply andb_prop in H as [Hlen Hall]. exists entries.
    split; [reflexivity|]. split; [now apply Z.eqb_eq|].
    now apply (forallb_Forall_iff _ _ _ (pixel_ok_spec len)).
  - intros [entries [-> [Hlen Hall]]]. simpl. apply andb_true_intro. split.
    + now apply Z.eqb_eq.
    + now apply (forallb_Forall_iff _ _ _ (pixel_ok_spec len)).
Qed.

(** C4: [validatePixels] returns true exactly for a grid of [size] rows of
    [size] entries, each an integer in the range [0, paletteLength). *)
Theorem validatePixels_spec (pixels : JValue) (size paletteLength : Z) :
  validatePixels pixels size paletteLength = true
  <-> GridSpec pixels size paletteLength.
Proof.
  unfold GridSpec. split.
  - destruct pixels as [| | | | |rows|]; simpl; try discriminate.
    intros H. apply andb_prop in H as [Hlen Hall]. exists rows.
    split; [reflexivity|]. split; [now apply Z.eqb_eq|].
    now apply (forallb_Forall_iff _ _ _ (row_ok_spec size paletteLength)).
  - intros [rows [-> [Hlen Hall]]]. simpl. apply andb_true_intro. split.
    + now apply Z.eqb_eq.
    + now apply (forallb_Forall_iff _ _ _ (row_ok_spec size paletteLength)).
Qed.

(** The rejections the specification lists, on a palette of two colours:
    a row short, an extra column, an index equal to the palette length, and
    an entry that is not an integer. *)
Lemma validatePixels_rejections :
  validatePixels (JArr [JArr [JNat 0; JNat 1]; JArr [JNat 1; JNat 0]]) 2 2 = true
  /\ validatePixels (JArr [JArr [JNat 0; JNat 1]]) 2 2 = false
  /\ validatePixels (JArr [JArr [JNat 0; JNat 1; JNat 0]; JArr [JNat 1; JNat 0]]) 2 2
     = false
  /\ validatePixels (JArr [JArr [JNat 0; JNat 2]; JArr [JNat 1; JNat 0]]) 2 2 = false
  /\ validatePixels (JArr [JArr [JNat 0; JNum (Fin (3 # 2))]; JArr [JNat 1; JNat 0]])
       2 2 = false
  /\ validatePixels (JArr [JArr [JNat 0; JStr "1"]; JArr [JNat 1; JNat 0]]) 2 2
     = false.
Proof. repeat split; reflexivity. Qed.

(** ** Renderer: ASCII *)

Lemma forallb_seq (f : nat -> bool) (n i : nat) :
  forallb f (seq 0 n) = true -> (i < n)%nat -> f i = true.
Proof.
  intros H Hi. rewrite forallb_forall in H. apply H.
  apply in_seq. lia.
Qed.

(** Sums of channel values are exact in double arithmetic. *)
Lemma add_exact (a b : Z) :
  (0 <= a <= 510)%Z -> (0 <= b <= 255)%Z ->
  (Z2float a + Z2float b)%float = Z2float (a + b).
Proof.
  intros Ha Hb.
  assert (H : forallb (fun i => forallb (fun j =>
              PrimFloat.Leibniz.eqb
                (Z2float (Z.of_nat i) + Z2float (Z.of_nat j))%float
                (Z2float (Z.of_nat i + Z.of_nat j))) (seq 0 256)) (seq 0 511)
              = true) by (vm_compute; reflexivity).
  apply (forallb_seq _ _ (Z.to_nat a)) in H; [|lia].
  apply (forallb_seq _ _ (Z.to_nat b)) in H; [|lia].
  apply FloatAxioms.Leibniz.eqb_spec in H.
  rewrite !Z2Nat.id in H by lia. exact H.
Qed.

(** The ramp index computed in doubles is the exact one. *)
Lemma ramp_index_exact (s : Z) :
  (0 <= s <= 765)%Z ->
  Math_floor (Z2float s / (3 * 255) * Z2float (Z.of_nat (length chars) - 1))%float
  = Some (Qfloor (inject_Z s / (3 * 255)
                  * (inject_Z (Z.of_nat (length chars)) - 1)))
  /\ (0 <= Qfloor (inject_Z s / (3 * 255)
                   * (inject_Z (Z.of_nat (length chars)) - 1)) <= 9)%Z.
Proof.
  intros Hs.
  assert (H : forallb (fun i =>
              let e := Qfloor (inject_Z (Z.of_nat i) / (3 * 255)
                               * (inject_Z (Z.of_nat (length chars)) - 1)) in
              match Math_floor (Z2float (Z.of_nat i) / (3 * 255)
                                * Z2float (Z.of_nat (length chars) - 1))%float with
              | Some z => (z =? e)%Z && (0 <=? e)%Z && (e <=? 9)%Z
              | None => false
              end) (seq 0 766) = true) by (vm_compute; reflexivity).
  apply (forallb_seq _ _ (Z.to_nat s)) in H; [|lia].
  cbv beta zeta in H. rewrite !Z2Nat.id in H by lia.
  destruct (Math_floor _) as [z|]; [|discriminate H].
  apply andb_prop in H as [H H9]. apply andb_prop in H as [He H0].
  apply Z.eqb_eq in He. subst z. split; [reflexivity|]. lia.
Qed.

Lemma two_digits (d1 d2 : ascii) :
  HexDigit d1 -> HexDigit d2 ->
  exists v : Z,
    channel d1 d2 = Some v /\ (0 <= v <= 255)%Z
    /\ parseInt16_string (String d1 (String d2 EmptyString)) = Some v.
Proof.
  intros H1 H2.
  assert (H : forallb (fun c1 => forallb (fun c2 =>
              match channel c1 c2,
                    parseInt16_string (String c1 (String c2 EmptyString)) with
              | Some v, Some w => (v =? w)%Z && (0 <=? v)%Z && (v <=? 255)%Z
              | _, _ => false
              end) hex_digits) hex_digits = true) by (vm_compute; reflexivity).
  rewrite forallb_forall in H. apply H in H1.
  rewrite forallb_forall in H1. apply H1 in H2.
  destruct (channel d1 d2) as [v|]; [|discriminate H2].
  destruct (parseInt16_string _) as [w|]; [|discriminate H2].
  apply andb_prop in H2 as [H2 Hhi]. apply andb_prop in H2 as [He Hlo].
  apply Z.eqb_eq in He. subst w. exists v. repeat split; lia || reflexivity.
Qed.

(** Slicing and parsing a colour string gives its three 8-bit channels, and
    the brightness is their sum divided by 3 * 255, in doubles. *)
Lemma color_brightness_hex (s : string) :
  HexColor s ->
  exists r g b : Z,
    rgb_channels s = Some (r, g, b)
    /\ (0 <= r <= 255)%Z /\ (0 <= g <= 255)%Z /\ (0 <= b <= 255)%Z
    /\ color_brightness (JStr s)
       = Ret ((Z2float r + Z2float g + Z2float b) / (3 * 255))%float.
Proof.
  intros [ds [-> [Hlen Hall]]].
  destruct ds as [|r1 [|r2 [|g1 [|g2 [|b1 [|b2 [|? ?]]]]]]]; try discriminate Hlen.
  repeat match goal with
         | H : Forall _ (_ :: _) |- _ => inversion H; subst; clear H
         end.
  destruct (two_digits r1 r2) as [r [Hr [Hrb Hrp]]]; try assumption.
  destruct (two_digits g1 g2) as [g [Hg [Hgb Hgp]]]; try assumption.
  destruct (two_digits b1 b2) as [b [Hb [Hbb Hbp]]]; try assumption.
  exists r, g, b. repeat split; try lia.
  - cbn [rgb_channels string_of_list_ascii]. rewrite Hr, Hg, Hb. reflexivity.
  - unfold color_brightness, slice, parseInt16.
    cbn [string_of_list_ascii String.substring Nat.sub bind ToString].
    rewrite Hrp, Hgp, Hbp. reflexivity.
Qed.

Lemma key_index_pretty (len i : nat) :
  (i < len)%nat -> key_index len (pretty i) = Some i.
Proof.
  intros Hi. unfold key_index.
  destruct (List.find _ (seq 0 len)) as [j|] eqn:E.
  - apply find_some in E as [_ E]. apply String.eqb_eq in E.
    apply (inj pretty) in E. now subst.
  - assert (Hin : In i (seq 0 len)) by (apply in_seq; lia).
    apply (find_none _ _ E) in Hin. rewrite String.eqb_refl in Hin.
    discriminate Hin.
Qed.

Lemma pretty_Z_of_nat (n : nat) : pretty (Z.of_nat n) = pretty n.
Proof. destruct n; reflexivity. Qed.

(** A grid entry that is an index converts to the key of that index. *)
Lemma ToString_index (len : Z) (v : JValue) :
  IsIndex len v ->
  ToString v = Ret (pretty (pixel_index v))
  /\ (Z.of_nat (pixel_index v) < len)%Z.
Proof.
  intros [q [k [-> [Hk [Hlo Hhi]]]]].
  cbn [ToString pixel_index]. unfold NumberToString.
  assert (Hint : Q_is_integer q = true) by (apply Q_is_integer_spec; eauto).
  rewrite Hint, (Q_to_Z_inject q k Hk), <- pretty_Z_of_nat, Z2Nat.id by lia.
  split; [reflexivity | lia].
Qed.

Lemma get_prop_index (items : list JValue) (v : JValue) :
  IsIndex (Z.of_nat (length items)) v ->
  exists item, items !! pixel_index v = Some item
               /\ get_prop (JArr items) v = Ret item.
Proof.
  intros Hv. apply ToString_index in Hv as [Hs Hlt].
  destruct (lookup_lt_is_Some_2 items (pixel_index v)) as [item Hitem]; [lia|].
  exists item. split; [exact Hitem|].
  unfold get_prop. rewrite Hs. cbn [bind].
  rewrite key_index_pretty by lia. now rewrite Hitem.
Qed.

Lemma mapM_map {A B C : Type} (f : B -> Result C) (g : A -> B) (h : A -> C)
    (l : list A) :
  Forall (fun x => f (g x) = Ret (h x)) l ->
  mapM f (map g l) = Ret (map h l).
Proof.
  induction 1 as [|x l Hx _ IH]; [reflexivity|].
  simpl. rewrite Hx. cbn [bind]. rewrite IH. reflexivity.
Qed.

Lemma mapM_color_brightness (colors : list string) :
  Forall HexColor colors ->
  mapM color_brightness (map JStr colors) = Ret (map brightness_of colors).
Proof.
  intros H. apply mapM_map. eapply Forall_impl; [exact H|].
  intros s Hs. destruct (color_brightness_hex s Hs) as (r & g & b & Hc & _ & _ & _ & Hb).
  unfold brightness_of. now rewrite Hc.
Qed.

(** The character of one pixel of a well-formed artwork. *)
Lemma ascii_char_index (colors : list string) (p : JValue) :
  Forall HexColor colors ->
  IsIndex (Z.of_nat (length colors)) p ->
  exists (c : string) (r g b : Z),
    colors !! pixel_index p = Some c
    /\ rgb_channels c = Some (r, g, b)
    /\ (0 <= spec_ramp_index r g b <= 9)%Z
    /\ ascii_char (map brightness_of colors) p
       = Ret (chars !! Z.to_nat (spec_ramp_index r g b)).
Proof.
  intros Hall Hp. apply ToString_index in Hp as [Hs Hlt].
  destruct (lookup_lt_is_Some_2 colors (pixel_index p)) as [c Hc]; [lia|].
  assert (Hhex : HexColor c).
  { rewrite Forall_forall in Hall. apply Hall. eapply list_elem_of_lookup_2, Hc. }
  destruct (color_brightness_hex c Hhex) as (r & g & b & Hch & Hr & Hg & Hb & _).
  destruct (ramp_index_exact (r + g + b)) as [Hfloor Hrange]; [lia|].
  exists c, r, g, b. repeat split; try assumption; try apply Hrange.
  unfold ascii_char, brightness_at. rewrite Hs. cbn [bind].
  rewrite length_map, key_index_pretty by lia.
  rewrite list_lookup_fmap, Hc. cbn [fmap option_fmap option_map default id].
  unfold brightness_of. rewrite Hch.
  rewrite (add_exact r g), (add_exact (r + g) b) by lia.
  rewrite Hfloor. unfold char_at, spec_ramp_index.
  destruct (Z.leb_spec 0 (Qfloor (inject_Z (r + g + b) / (3 * 255)
              * (inject_Z (Z.of_nat (length chars)) - 1)))) as [_|Hneg];
    [reflexivity | lia].
Qed.

Lemma ascii_char_pixel (colors : list string) (p : JValue) :
  Forall HexColor colors ->
  IsIndex (Z.of_nat (length colors)) p ->
  ascii_char (map brightness_of colors) p = Ret (pixel_char colors p)
  /\ exists ch : ascii,
       pixel_char colors p = Some (String ch EmptyString)
       /\ In (String ch EmptyString) chars.
Proof.
  intros Hall Hp.
  destruct (ascii_char_index colors p Hall Hp) as (c & r & g & b & Hc & Hch & Hrange & Hchar).
  unfold pixel_char. rewrite Hc. cbn [mbind option_bind]. rewrite Hch.
  cbn [mbind option_bind]. split; [exact Hchar|].
  assert (Hn : (Z.to_nat (spec_ramp_index r g b) < 10)%nat) by lia.
  revert Hn. generalize (Z.to_nat (spec_ramp_index r g b)). intros n Hn.
  do 10 (destruct n as [|n]; [eexists; split; [reflexivity | simpl; tauto]|]).
  lia.
Qed.

Lemma mapM_Forall {A B : Type} (f : A -> Result B) (P : B -> Prop) (l : list A) :
  Forall (fun x => exists y, f x = Ret y /\ P y) l ->
  exists ys, mapM f l = Ret ys /\ length ys = length l /\ Forall P ys.
Proof.
  induction 1 as [|x l [y [Hy HP]] _ [ys [Hys [Hlen Hall]]]].
  - exists []. repeat split. constructor.
  - exists (y :: ys). simpl. rewrite Hy. cbn [bind]. rewrite Hys.
    repeat split; [now rewrite Hlen | now constructor].
Qed.

(** Joining one-character strings with the empty separator. *)
Lemma join_ramp_chars (cs : list (option string)) :
  Forall (fun o => exists ch : ascii,
            o = Some (String ch EmptyString) /\ In (String ch EmptyString) chars) cs ->
  RampLine (Z.of_nat (length cs)) (join_with "" cs).
Proof.
  induction 1 as [|o cs [ch [-> Hin]] Hcs IH].
  - split; [reflexivity | constructor].
  - destruct IH as [IHlen IHall].
    assert (E : join_with "" (Some (String ch EmptyString) :: cs)
                = String ch (join_with "" cs)).
    { destruct cs; reflexivity. }
    rewrite E. split.
    + cbn [String.length length]. lia.
    + cbn [list_ascii_of_string]. now constructor.
Qed.

Lemma mapM_pointwise {A B : Type} (f : A -> Result B) (h : A -> B) (l : list A) :
  Forall (fun x => f x = Ret (h x)) l -> mapM f l = Ret (map h l).
Proof.
  induction 1 as [|x l Hx _ IH]; [reflexivity|].
  simpl. rewrite Hx. cbn [bind]. now rewrite IH.
Qed.

(** Joining with a separator is the concatenation of the standard
    library. *)
Lemma join_with_concat (sep : string) (l : list string) :
  join_with sep (map Some l) = String.concat sep l.
Proof.
  induction l as [|a [|b l] IH]; [reflexivity | reflexivity |].
  change (join_with sep (map Some (a :: b :: l)))
    with (a +:+ sep +:+ join_with sep (map Some (b :: l))).
  now rewrite IH.
Qed.

(** The characters of a line joined from one-character strings. *)
Lemma join_single_chars (cs : list (option string)) :
  Forall (fun o => exists ch : ascii, o = Some (String ch EmptyString)) cs ->
  forall (x : nat) (o : option string),
    cs !! x = Some o ->
    exists ch : ascii,
      o = Some (String ch EmptyString)
      /\ String.get x (join_with "" cs) = Some ch.
Proof.
  induction 1 as [|o' cs [ch' ->] _ IH]; intros x o Hx; [discriminate Hx|].
  assert (E : join_with "" (Some (String ch' EmptyString) :: cs)
              = String ch' (join_with "" cs)) by (destruct cs; reflexivity).
  rewrite E. destruct x as [|x]; cbn in Hx.
  - injection Hx as <-. exists ch'. now split.
  - destruct (IH x o Hx) as [ch [-> Hget]]. exists ch. now split.
Qed.

Lemma ramp_char (n : nat) (ch : ascii) :
  chars !! n = Some (String ch EmptyString) -> String.get n ramp = Some ch.
Proof.
  do 10 (destruct n as [|n]; [intros [= <-]; reflexivity|]). discriminate.
Qed.

(** The line of one row of a well-formed grid: character [x] is the
    character of entry [x]. *)
Lemma ascii_row_line (size : Z) (colors : list string) (entries : list JValue) :
  Forall HexColor colors ->
  Z.of_nat (length entries) = size ->
  Forall (IsIndex (Z.of_nat (length colors))) entries ->
  ascii_row (map brightness_of colors) (JArr entries)
  = Ret (join_with "" (map (pixel_char colors) entries))
  /\ RampLine size (join_with "" (map (pixel_char colors) entries))
  /\ forall (x : nat) (p : JValue),
       entries !! x = Some p ->
       exists ch : ascii,
         pixel_char colors p = Some (String ch EmptyString)
         /\ String.get x (join_with "" (map (pixel_char colors) entries)) = Some ch.
Proof.
  intros Hall Hlen Hentries.
  assert (Hcs : Forall (fun o => exists ch : ascii,
                          o = Some (String ch EmptyString)
                          /\ In (String ch EmptyString) chars)
                       (map (pixel_char colors) entries)).
  { apply Forall_fmap. eapply Forall_impl; [exact Hentries|]. intros p Hp.
    apply (ascii_char_pixel colors p Hall Hp). }
  split; [|split].
  - unfold ascii_row. rewrite (mapM_pointwise _ (pixel_char colors)); [reflexivity|].
    eapply Forall_impl; [exact Hentries|]. intros p Hp.
    apply (ascii_char_pixel colors p Hall Hp).
  - rewrite <- Hlen, <- (length_map (pixel_char colors) entries).
    now apply join_ramp_chars.
  - intros x p Hx.
    destruct (join_single_chars (map (pixel_char colors) entries)) with
      (x := x) (o := pixel_char colors p) as [ch [Hch Hget]].
    + eapply Forall_impl; [exact Hcs|]. intros o [ch [-> _]]. now exists ch.
    + now rewrite list_lookup_fmap, Hx.
    + exists ch. now split.
Qed.

(** The text of a well-formed artwork: one line per row, joined by line
    breaks, the character of pixel (x, y) at position [x] of line [y]. *)
Lemma ascii_art_text (size : Z) (pal pix : JValue) (colors : list string) :
  ArtworkSpec size pal pix colors ->
  exists lines : list string,
    ascii_art pal pix = Ret (String.concat line_break lines)
    /\ Z.of_nat (length lines) = size
    /\ Forall (RampLine size) lines
    /\ forall y x : nat,
         (Z.of_nat y < size)%Z -> (Z.of_nat x < size)%Z ->
         exists (line : string) (ch : ascii),
           lines !! y = Some line /\ String.get x line = Some ch
           /\ pixel_char colors (cell pix y x) = Some (String ch EmptyString).
Proof.
  intros [[-> [_ Hcolors]] [rows [-> [Hlen Hrows]]]].
  set (line_of := fun row : JValue =>
         match row with
         | JArr entries => join_with "" (map (pixel_char colors) entries)
         | _ => ""
         end).
  assert (Hlines : mapM (ascii_row (map brightness_of colors)) rows
                   = Ret (map line_of rows)).
  { apply mapM_pointwise. eapply Forall_impl; [exact Hrows|].
    intros row [entries [-> [He Hentries]]].
    apply (ascii_row_line size colors entries Hcolors He Hentries). }
  exists (map line_of rows). split; [|split; [|split]].
  - unfold ascii_art. rewrite mapM_color_brightness by assumption.
    cbn [bind]. rewrite Hlines. cbn [bind]. now rewrite join_with_concat.
  - now rewrite length_map.
  - apply Forall_fmap. eapply Forall_impl; [exact Hrows|].
    intros row [entries [-> [He Hentries]]].
    apply (ascii_row_line size colors entries Hcolors He Hentries).
  - intros y x Hy Hx.
    destruct (lookup_lt_is_Some_2 rows y) as [row Hrow]; [lia|].
    rewrite Forall_forall in Hrows.
    destruct (Hrows row) as [entries [-> [He Hentries]]];
      [eapply list_elem_of_lookup_2, Hrow|].
    destruct (lookup_lt_is_Some_2 entries x) as [p Hp]; [lia|].
    destruct (ascii_row_line size colors entries Hcolors He Hentries)
      as (_ & _ & Hget).
    destruct (Hget x p Hp) as [ch [Hch Hline]].
    exists (line_of (JArr entries)), ch.
    split; [now rewrite list_lookup_fmap, Hrow|]. split; [exact Hline|].
    unfold cell. now rewrite Hrow, Hp.
Qed.

Lemma select_by_id_Some (st : Store) (id : string) (row : Row) :
  st !! id = Some row -> select_by_id st id = Ret (Some row).
Proof. intros H. unfold select_by_id. now rewrite H. Qed.

(** C5: the brightness of a palette colour is (R+G+B)/(3*255) of its
    decoded 8-bit channels, every pixel is rendered as the ramp character at
    index floor(brightness * (rampLength - 1)) of the ramp [" .:-=+*#%@"],
    the text the handlers send for a well-formed artwork is made of these
    characters, one line per row, the lines joined by the character of
    code 10, and the artwork with palette ["#000000","#FFFFFF"] and grid
    [[0,1],[1,0]] renders as [" @"], a line break and ["@ "]. *)
Theorem ascii_ramp_spec (colors : list string) (p : JValue)
    (Hcolors : Forall HexColor colors)
    (Hp : IsIndex (Z.of_nat (length colors)) p) :
  (forall c, In c colors ->
     exists r g b : Z,
       rgb_channels c = Some (r, g, b)
       /\ (0 <= r <= 255)%Z /\ (0 <= g <= 255)%Z /\ (0 <= b <= 255)%Z
       /\ color_brightness (JStr c)
          = Ret ((Z2float r + Z2float g + Z2float b) / (3 * 255))%float)
  /\ (exists (c : string) (r g b : Z),
        colors !! pixel_index p = Some c
        /\ rgb_channels c = Some (r, g, b)
        /\ mapM color_brightness (map JStr colors) = Ret (map brightness_of colors)
        /\ (0 <= spec_ramp_index r g b <= 9)%Z
        /\ ascii_char (map brightness_of colors) p
           = Ret (chars !! Z.to_nat (spec_ramp_index r g b)))
  /\ chars = [" "; "."; ":"; "-"; "="; "+"; "*"; "#"; "%"; "@"]
  /\ (forall (size : Z) (pal pix : JValue),
        ArtworkSpec size pal pix colors ->
        exists lines : list string,
          ascii_art pal pix = Ret (String.concat (String "010"%char EmptyString) lines)
          /\ Z.of_nat (length lines) = size
          /\ Forall (fun l => Z.of_nat (String.length l) = size) lines
          /\ (forall y x : nat,
                (Z.of_nat y < size)%Z -> (Z.of_nat x < size)%Z ->
                exists (line c : string) (r g b : Z) (ch : ascii),
                  lines !! y = Some line /\ String.get x line = Some ch
                  /\ resolved_color colors pix y x = Some c
                  /\ rgb_channels c = Some (r, g, b)
                  /\ String.get (Z.to_nat (spec_ramp_index r g b)) " .:-=+*#%@"
                     = Some ch)
          /\ forall (st : Store) (id : string) (row : Row),
               st !! id = Some row -> palette row = pal -> pixels row = pix ->
               get_api_art_id_ascii_sqlite st id
               = (Ok200Text (String.concat (String "010"%char EmptyString) lines), st)
               /\ get_api_art_id_ascii st id
                  = (Ok200Text (String.concat (String "010"%char EmptyString) lines),
                     st))
  /\ ascii_art example_palette example_pixels
     = Ret (" @" +:+ String "010"%char "@ ").
Proof.
  split; [|split; [|split; [|split]]].
  - intros c Hc. apply color_brightness_hex.
    rewrite Forall_forall in Hcolors. now apply Hcolors, list_elem_of_In.
  - destruct (ascii_char_index colors p Hcolors Hp)
      as (c & r & g & b & Hc & Hch & Hrange & Hchar).
    exists c, r, g, b. repeat split; try assumption; try apply Hrange.
    now apply mapM_color_brightness.
  - reflexivity.
  - intros size pal pix Hart.
    destruct (ascii_art_text size pal pix colors Hart)
      as (lines & Htext & Hlen & Hramp & Hchars).
    exists lines. split; [exact Htext|]. split; [exact Hlen|].
    split; [eapply Forall_impl; [exact Hramp|]; now intros l [Hl _]|]. split.
    + intros y x Hy Hx.
      destruct (Hchars y x Hy Hx) as (line & ch & Hline & Hget & Hpc).
      unfold pixel_char in Hpc. unfold resolved_color.
      destruct (colors !! pixel_index (cell pix y x)) as [c|] eqn:Hc;
        [|discriminate Hpc].
      cbn [mbind option_bind] in Hpc.
      destruct (rgb_channels c) as [[[r g] b]|] eqn:Hrgb; [|discriminate Hpc].
      cbn [mbind option_bind] in Hpc.
      exists line, c, r, g, b, ch. repeat split; try assumption.
      now apply ramp_char.
    + intros st id row Hrow Hpal Hpix.
      unfold get_api_art_id_ascii_sqlite, get_api_art_id_ascii.
      rewrite (select_by_id_Some st id row Hrow), Hrow, Hpal, Hpix, Htext.
      now split.
  - vm_compute. reflexivity.
Qed.

Lemma example_colors_hex : Forall HexColor example_colors.
Proof.
  unfold example_colors.
  repeat (constructor; [apply hex_color_regex_spec; reflexivity|]).
  constructor.
Defined.

Lemma JNat_index (n : nat) (len : Z) : (Z.of_nat n < len)%Z -> IsIndex len (JNat n).
Proof.
  intros H. exists (inject_Z (Z.of_nat n)), (Z.of_nat n).
  split; [reflexivity|]. split; [reflexivity | lia].
Defined.

Lemma ascii_ramp_spec_witness :
  Forall HexColor example_colors
  /\ IsIndex (Z.of_nat (length example_colors)) (JNat 1)
  /\ exists (c : string) (r g b : Z),
       example_colors !! 1%nat = Some c
       /\ rgb_channels c = Some (r, g, b)
       /\ ascii_char (map brightness_of example_colors) (JNat 1)
          = Ret (chars !! Z.to_nat (spec_ramp_index r g b)).
Proof.
  assert (Hp : IsIndex (Z.of_nat (length example_colors)) (JNat 1))
    by (apply JNat_index; simpl; lia).
  split; [exact example_colors_hex|]. split; [exact Hp|].
  destruct (ascii_ramp_spec example_colors (JNat 1) example_colors_hex Hp)
    as (_ & (c & r & g & b & Hc & Hch & _ & _ & Hchar) & _).
  exists c, r, g, b. repeat split; assumption.
Defined.

(** C9 (the code departs from the claim): the palette [["#000000"]] passes
    both validators and the creation handlers store it; for that artwork
    the ASCII handlers answer with 31 line breaks and nothing else, that
    is 32 lines of no character instead of 32 lines of 32 characters. *)
Theorem ascii_lines_of_nested_palette :
  validatePalette nested_palette = Ret true
  /\ validatePixels zero_grid 32 (js_length nested_palette) = true
  /\ post_api_art_sqlite ∅ nested_body "new" "now"
     = (Created201 "Art created!" "new" JNull,
        <["new" := new_row nested_body "now"]> ∅)
  /\ post_api_art ∅ nested_body "new" "now"
     = (Created201 "Art created!" "new" JNull,
        <["new" := new_row nested_body "now"]> ∅)
  /\ get_api_art_id_ascii_sqlite (<["new" := new_row nested_body "now"]> ∅) "new"
     = (Ok200Text (string_of_list_ascii (repeat "010"%char 31)),
        <["new" := new_row nested_body "now"]> ∅)
  /\ get_api_art_id_ascii (<["new" := new_row nested_body "now"]> ∅) "new"
     = (Ok200Text (string_of_list_ascii (repeat "010"%char 31)),
        <["new" := new_row nested_body "now"]> ∅)
  /\ string_of_list_ascii (repeat "010"%char 31)
     = String.concat (String "010"%char EmptyString) (repeat "" 32).
Proof. repeat split; vm_compute; reflexivity. Qed.

Lemma example_artwork :
  ArtworkSpec 2 example_palette example_pixels example_colors.
Proof.
  split.
  - split; [reflexivity|]. split; [simpl; lia | exact example_colors_hex].
  - eexists. split; [reflexivity|]. split; [reflexivity|].
    repeat constructor;
      (eexists; split; [reflexivity|]; split; [reflexivity|]);
      repeat constructor; apply JNat_index; simpl; lia.
Defined.

(** ** Resolving pixels of a well-formed artwork *)

Lemma pixel_index_JNat (n : nat) : pixel_index (JNat n) = n.
Proof.
  unfold pixel_index, JNat, Q_to_Z. cbn [Qnum Qden inject_Z].
  rewrite Z.div_1_r. apply Nat2Z.id.
Qed.

Lemma get_prop_nat (items : list JValue) (n : nat) (item : JValue) :
  items !! n = Some item -> get_prop (JArr items) (JNat n) = Ret item.
Proof.
  intros Hn.
  destruct (get_prop_index items (JNat n)) as [item' [Hitem' Hget]].
  - apply JNat_index. apply lookup_lt_Some in Hn. lia.
  - rewrite pixel_index_JNat in Hitem'. congruence.
Qed.

Lemma resolve_spec (size : Z) (pal pix : JValue) (colors : list string) (y x : nat) :
  ArtworkSpec size pal pix colors ->
  (Z.of_nat y < size)%Z -> (Z.of_nat x < size)%Z ->
  exists c : string,
    resolved_color colors pix y x = Some c
    /\ HexColor c
    /\ resolve pal pix y x = Ret (JStr c).
Proof.
  intros [[-> [_ Hcolors]] [rows [-> [Hlen Hrows]]]] Hy Hx.
  destruct (lookup_lt_is_Some_2 rows y) as [row Hrow]; [lia|].
  rewrite Forall_forall in Hrows.
  destruct (Hrows row) as [entries [-> [Hlen' Hentries]]];
    [eapply list_elem_of_lookup_2, Hrow|].
  destruct (lookup_lt_is_Some_2 entries x) as [p Hp]; [lia|].
  rewrite Forall_forall in Hentries.
  assert (Hidx : IsIndex (Z.of_nat (length colors)) p)
    by (apply Hentries; eapply list_elem_of_lookup_2, Hp).
  destruct (get_prop_index (map JStr colors) p) as [item [Hitem Hget]];
    [now rewrite length_map|].
  rewrite list_lookup_fmap in Hitem.
  destruct (colors !! pixel_index p) as [c|] eqn:Hc; [|discriminate Hitem].
  injection Hitem as <-. exists c.
  assert (Hcell : cell (JArr rows) y x = p).
  { unfold cell. now rewrite Hrow, Hp. }
  split; [unfold resolved_color; now rewrite Hcell|]. split.
  - rewrite Forall_forall in Hcolors. apply Hcolors.
    eapply list_elem_of_lookup_2, Hc.
  - unfold resolve. rewrite (get_prop_nat rows y _ Hrow). cbn [bind].
    rewrite (get_prop_nat entries x _ Hp). cbn [bind]. exact Hget.
Qed.

(** ** Renderer: SVG *)







(** ** Remix comparison *)

Lemma foldM_count {A : Type} (g : A -> Result bool) (h : A -> bool)
    (l : list A) (c : nat) :
  (forall x, In x l -> g x = Ret (h x)) ->
  foldM (fun changed x => let* d := g x in Ret (if d then S changed else changed))
        c l
  = Ret (c + length (List.filter h l))%nat.
Proof.
  revert c. induction l as [|x l IH]; intros c H.
  - simpl. now rewrite Nat.add_0_r.
  - cbn [foldM List.filter]. rewrite (H x) by now left. cbn [bind].
    rewrite IH by (intros; apply H; now right).
    destruct (h x); cbn [length]; apply f_equal; lia.
Qed.

Lemma foldM_sum {A : Type} (F : nat -> A -> Result nat) (w : A -> nat)
    (l : list A) (c : nat) :
  (forall c x, In x l -> F c x = Ret (c + w x)%nat) ->
  foldM F c l = Ret (c + sum_list (map w l))%nat.
Proof.
  revert c. induction l as [|x l IH]; intros c H.
  - simpl. now rewrite Nat.add_0_r.
  - change (sum_list (map w (x :: l))) with (w x + sum_list (map w l))%nat.
    cbn [foldM]. rewrite (H c x) by now left. cbn [bind].
    rewrite IH by (intros; apply H; now right). apply f_equal. lia.
Qed.

Lemma cell_changed_spec (sz : Z) (opal opix pal pix : JValue)
    (ocolors colors : list string) (y x : nat) :
  ArtworkSpec sz opal opix ocolors ->
  ArtworkSpec sz pal pix colors ->
  (Z.of_nat y < sz)%Z -> (Z.of_nat x < sz)%Z ->
  exists oc nc : string,
    resolved_color ocolors opix y x = Some oc
    /\ resolved_color colors pix y x = Some nc
    /\ cell_changed opal opix pal pix y x = Ret (negb (String.eqb oc nc))
    /\ differs ocolors colors opix pix y x = negb (String.eqb oc nc).
Proof.
  intros Ho Hn Hy Hx.
  destruct (resolve_spec sz opal opix ocolors y x Ho Hy Hx) as [oc [Hoc [_ Hor]]].
  destruct (resolve_spec sz pal pix colors y x Hn Hy Hx) as [nc [Hnc [_ Hnr]]].
  exists oc, nc. split; [exact Hoc|]. split; [exact Hnc|]. split.
  - unfold cell_changed. rewrite Hor, Hnr. reflexivity.
  - unfold differs. rewrite Hoc, Hnc. f_equal.
    destruct (String.eqb_spec oc nc) as [->|Hne].
    + now apply bool_decide_eq_true.
    + apply bool_decide_eq_false. congruence.
Qed.

(** What the loop does count: a cell is counted as changed exactly when
    the palette entry its new index resolves to, in the new palette,
    differs as a string from the entry its original index resolves to, in
    the original palette; a cell whose 24-bit colours differ is always
    counted. *)
Lemma remix_counts_resolved_colors (sz : Z) (opal opix pal pix : JValue)
    (ocolors colors : list string)
    (Ho : ArtworkSpec sz opal opix ocolors)
    (Hn : ArtworkSpec sz pal pix colors) :
  (forall y x : nat,
     (Z.of_nat y < sz)%Z -> (Z.of_nat x < sz)%Z ->
     exists oc nc : string,
       resolved_color ocolors opix y x = Some oc
       /\ resolved_color colors pix y x = Some nc
       /\ (cell_changed opal opix pal pix y x = Ret true <-> oc <> nc)
       /\ (cell_changed opal opix pal pix y x = Ret false <-> oc = nc)
       /\ (rgb_value oc <> rgb_value nc ->
           cell_changed opal opix pal pix y x = Ret true))
  /\ computeChangeRatio opal opix pal pix sz
     = Ret (changed_cells ocolors colors opix pix (Z.to_nat sz)).
Proof.
  split.
  - intros y x Hy Hx.
    destruct (cell_changed_spec sz opal opix pal pix ocolors colors y x Ho Hn Hy Hx)
      as (oc & nc & Hoc & Hnc & Hcell & _).
    exists oc, nc. split; [exact Hoc|]. split; [exact Hnc|].
    rewrite Hcell. destruct (String.eqb_spec oc nc) as [->|Hne]; cbn [negb].
    + repeat split; try congruence; try discriminate.
    + repeat split; try congruence; try discriminate.
  - unfold computeChangeRatio, changed_cells.
    rewrite (foldM_sum _ (fun y => length (List.filter
               (differs ocolors colors opix pix y) (seq 0 (Z.to_nat sz))))).
    + reflexivity.
    + intros c y Hy. apply in_seq in Hy. apply foldM_count.
      intros x Hx. apply in_seq in Hx.
      destruct (cell_changed_spec sz opal opix pal pix ocolors colors y x Ho Hn)
        as (oc & nc & _ & _ & Hcell & Hd); [lia | lia |].
      now rewrite Hcell, Hd.
Qed.

(** A grid the check accepts has the specified shape, and conversely. *)
Lemma grid_of_check (pix : JValue) (sz len : Z) :
  validatePixels pix sz len = true <-> GridSpec pix sz len.
Proof.
  unfold GridSpec. split.
  - destruct pix as [| | | | |rows|]; simpl; try discriminate.
    intros H. apply andb_prop in H as [Hlen Hall]. exists rows.
    split; [reflexivity|]. split; [now apply Z.eqb_eq|].
    now apply (forallb_Forall_iff _ _ _ (row_ok_spec sz len)).
  - intros [rows [-> [Hlen Hall]]]. simpl. apply andb_true_intro. split.
    + now apply Z.eqb_eq.
    + now apply (forallb_Forall_iff _ _ _ (row_ok_spec sz len)).
Qed.

Lemma white_artworks :
  ArtworkSpec 32 upper_palette zero_grid ["#FFFFFF"]
  /\ ArtworkSpec 32 lower_palette zero_grid ["#ffffff"].
Proof.
  split; (split; [split; [reflexivity|]; split; [simpl; lia|];
                  constructor; [apply hex_color_regex_spec; reflexivity|constructor]
                 | apply grid_of_check; vm_compute; reflexivity]).
Defined.

Lemma recased_artwork :
  ArtworkSpec 32 recased_palette one_pixel_grid ["#ffffff"; "#000000"].
Proof.
  split.
  - split; [reflexivity|]. split; [simpl; lia|].
    repeat (constructor; [apply hex_color_regex_spec; reflexivity|]).
    constructor.
  - apply grid_of_check. vm_compute. reflexivity.
Qed.

(** C1 (the code departs from the claim): the loop compares the resolved
    palette entries as strings, and the palette check admits both letter
    cases.  "#FFFFFF" and "#ffffff" are the same 24-bit colour, yet a remix
    of the all-white artwork that recolours one pixel and writes the white
    entry in lower case has all of its 1024 cells counted as changed, not
    the one cell whose colour changed, and is refused as changing too many
    pixels; a remix that only rewrites the entry fares the same. *)
Theorem remix_letter_case_counterexample :
  ArtworkSpec 32 upper_palette zero_grid ["#FFFFFF"]
  /\ ArtworkSpec 32 lower_palette zero_grid ["#ffffff"]
  /\ ArtworkSpec 32 recased_palette one_pixel_grid ["#ffffff"; "#000000"]
  /\ resolved_color ["#FFFFFF"] zero_grid 0 0 = Some "#FFFFFF"
  /\ resolved_color ["#ffffff"] zero_grid 0 0 = Some "#ffffff"
  /\ rgb_value "#FFFFFF" = rgb_value "#ffffff"
  /\ cell_changed upper_palette zero_grid lower_palette zero_grid 0 0 = Ret true
  /\ computeChangeRatio upper_palette zero_grid lower_palette zero_grid 32
     = Ret 1024%nat
  /\ rgb_changed_cells ["#FFFFFF"] ["#ffffff"] zero_grid zero_grid 32 = 0%nat
  /\ fst (post_api_art example_store lower_case_remix "new" "now")
     = Error400 ("Too many pixels changed. Remixes can only modify up to 50% "
                 +:+ "(512 pixels). You changed 1024.")
  /\ rgb_changed_cells ["#FFFFFF"] ["#ffffff"; "#000000"] zero_grid one_pixel_grid 32
     = 1%nat
  /\ remix_policy 32 1 = None
  /\ computeChangeRatio upper_palette zero_grid recased_palette one_pixel_grid 32
     = Ret 1024%nat
  /\ post_api_art example_store recased_remix "new" "now"
     = (Error400 ("Too many pixels changed. Remixes can only modify up to 50% "
                  +:+ "(512 pixels). You changed 1024."), example_store).
Proof.
  split; [apply white_artworks|]. split; [apply white_artworks|].
  split; [apply recased_artwork|].
  repeat split; vm_compute; reflexivity.
Qed.

(** The comparison is on resolved colours, not on indices: with the
    palette reversed, equal indices are a change and swapped indices are
    none. *)
Lemma remix_compares_colors_not_indices :
  cell_changed (JArr [JStr "#000000"; JStr "#FFFFFF"]) (JArr [JArr [JNat 0]])
               (JArr [JStr "#FFFFFF"; JStr "#000000"]) (JArr [JArr [JNat 0]]) 0 0
  = Ret true
  /\ cell_changed (JArr [JStr "#000000"; JStr "#FFFFFF"]) (JArr [JArr [JNat 0]])
                  (JArr [JStr "#FFFFFF"; JStr "#000000"]) (JArr [JArr [JNat 1]]) 0 0
     = Ret false.
Proof. split; vm_compute; reflexivity. Qed.

(** [Math.floor((size * size) * 0.5)] in doubles is the integer quotient,
    and [Math.floor(512 / size)] likewise, for the canvas sizes. *)
Lemma doubles_agree (sz : Z) :
  (1 <= sz <= 64)%Z ->
  Math_floor (Z2float sz * Z2float sz * 0.5)%float = Some (maxChanges sz)
  /\ Math_floor (512 / Z2float sz)%float = Some (512 / sz)%Z.
Proof.
  intros Hsz.
  assert (H : forallb (fun i =>
              let z := Z.of_nat (S i) in
              match Math_floor (Z2float z * Z2float z * 0.5)%float,
                    Math_floor (512 / Z2float z)%float with
              | Some a, Some b => (a =? maxChanges z)%Z && (b =? 512 / z)%Z
              | _, _ => false
              end) (seq 0 64) = true) by (vm_compute; reflexivity).
  apply (forallb_seq _ _ (Z.to_nat (sz - 1))) in H; [|lia].
  cbv beta zeta in H. replace (Z.of_nat (S (Z.to_nat (sz - 1)))) with sz in H by lia.
  destruct (Math_floor (Z2float sz * Z2float sz * 0.5)); [|discriminate H].
  destruct (Math_floor (512 / Z2float sz)); [|discriminate H].
  apply andb_prop in H as [Ha Hb]. apply Z.eqb_eq in Ha. apply Z.eqb_eq in Hb.
  now subst.
Qed.

Lemma remix_policy_None (sz : Z) (changed : nat) :
  remix_policy sz changed = None
  <-> ~ ((Z.of_nat changed > maxChanges sz)%Z \/ changed = 0%nat).
Proof.
  unfold remix_policy.
  destruct (Z.ltb_spec (maxChanges sz) (Z.of_nat changed)) as [Hgt|Hle].
  - split; [discriminate | intros H; exfalso; apply H; left; lia].
  - destruct (Nat.eqb_spec changed 0) as [->|Hne].
    + split; [discriminate | intros H; exfalso; apply H; now right].
    + split; [intros _ [H|H]; lia | reflexivity].
Qed.

(** C2: a remix submission that passes the structural checks and whose
    parent exists is rejected by the policy check exactly when
    [changedPixels > floor(size * size * 0.5)] or [changedPixels = 0]; with
    exactly floor(size * size * 0.5) changed cells it goes on to the
    insertion. *)
Theorem remix_policy_spec (st : Store) (b : Body) (id now pid : string)
    (orow : Row) (changed : nat)
    (Hvalid : structural_checks b = None)
    (Hremix : truthy (body_remix_of b) = true)
    (Hparent : find_parent st (body_remix_of b) = Ret (Some (pid, orow)))
    (Hcount : computeChangeRatio (palette orow) (pixels orow)
                (body_palette b) (body_pixels b) 32 = Ret changed) :
  Math_floor (Z2float 32 * Z2float 32 * 0.5)%float = Some (maxChanges 32)
  /\ maxChanges 32 = 512%Z
  /\ ((exists err, remix_policy 32 changed = Some err
                   /\ post_api_art st b id now = (Error400 err, st))
      <-> ((Z.of_nat changed > maxChanges 32)%Z \/ changed = 0%nat))
  /\ (~ ((Z.of_nat changed > maxChanges 32)%Z \/ changed = 0%nat) ->
      post_api_art st b id now = insert_art st b id now)
  /\ (Z.of_nat changed = maxChanges 32 ->
      post_api_art st b id now = insert_art st b id now)
  /\ (forall (sz : Z) (c : nat),
        remix_policy sz c = None
        <-> ~ ((Z.of_nat c > maxChanges sz)%Z \/ c = 0%nat)).
Proof.
  assert (Hpost : post_api_art st b id now
                  = match remix_policy 32 changed with
                    | Some err => (Error400 err, st)
                    | None => insert_art st b id now
                    end).
  { unfold post_api_art, remix_stage. now rewrite Hvalid, Hremix, Hparent, Hcount. }
  pose proof (remix_policy_None 32 changed) as Hnone.
  split; [apply doubles_agree; lia|]. split; [reflexivity|].
  split; [|split; [|split]].
  - split.
    + intros [err [Herr _]].
      destruct (Z.ltb_spec (maxChanges 32) (Z.of_nat changed)) as [Hgt|Hle];
        [left; lia|].
      destruct (Nat.eqb_spec changed 0) as [->|Hne]; [now right|].
      exfalso. assert (Hp : remix_policy 32 changed = None).
      { apply Hnone. intros [H|H]; lia. }
      congruence.
    + intros Hrej. destruct (remix_policy 32 changed) as [err|] eqn:E.
      * exists err. split; [reflexivity | exact Hpost].
      * exfalso. now apply Hnone.
  - intros Hok. apply Hnone in Hok. now rewrite Hpost, Hok.
  - intros Heq. assert (Hok : remix_policy 32 changed = None).
    { apply Hnone. change (maxChanges 32) with 512%Z in *. intros [H|H]; lia. }
    now rewrite Hpost, Hok.
  - apply remix_policy_None.
Qed.

Lemma remix_policy_spec_witness :
  structural_checks half_remix = None
  /\ truthy (body_remix_of half_remix) = true
  /\ find_parent example_store (body_remix_of half_remix)
     = Ret (Some ("orig", original_row))
  /\ computeChangeRatio (palette original_row) (pixels original_row)
       (body_palette half_remix) (body_pixels half_remix) 32 = Ret 512%nat
  /\ post_api_art example_store half_remix "new" "now"
     = insert_art example_store half_remix "new" "now".
Proof.
  assert (H1 : structural_checks half_remix = None) by (vm_compute; reflexivity).
  assert (H2 : truthy (body_remix_of half_remix) = true) by reflexivity.
  assert (H3 : find_parent example_store (body_remix_of half_remix)
               = Ret (Some ("orig", original_row))) by (vm_compute; reflexivity).
  assert (H4 : computeChangeRatio (palette original_row) (pixels original_row)
                 (body_palette half_remix) (body_pixels half_remix) 32
               = Ret 512%nat) by (vm_compute; reflexivity).
  repeat (split; [assumption|]).
  apply (remix_policy_spec example_store half_remix "new" "now" "orig"
           original_row 512 H1 H2 H3 H4).
  reflexivity.
Defined.

(** ** The creation handler and the store *)

Lemma structural_checks_rejects (b : Body) (r : Response) :
  structural_checks b = Some r -> is_created r = false.
Proof.
  unfold structural_checks.
  repeat match goal with
         | |- context [if ?c then _ else _] => destruct c
         | |- context [match validatePalette ?p with _ => _ end] =>
             destruct (validatePalette p) as [[|]|]
         end; intros H; try discriminate H; injection H as <-; reflexivity.
Qed.

Lemma insert_art_spec (st st' : Store) (b : Body) (id now : string) (r : Response) :
  insert_art st b id now = (r, st') ->
  (is_created r = false -> st' = st)
  /\ (is_created r = true -> st !! id = None /\ st' = <[id := new_row b now]> st).
Proof.
  unfold insert_art. destruct (st !! id) as [row|] eqn:E;
    [|destruct (has_nul _ || has_nul _)]; intros H;
    injection H as <- <-; split; intros Hc; try discriminate Hc; auto.
Qed.

(** C7: every rejection of POST /api/art (an invalid author, title or size,
    a malformed palette or grid, a missing remix parent, a remix changing
    too many or no pixels) is decided before the INSERT: whenever the
    answer is not a 201, the table is left exactly as it was; a 201 adds
    one row under a fresh id and touches no other row. *)
Theorem rejected_post_changes_nothing (st st' : Store) (b : Body)
    (id now : string) (r : Response)
    (Hpost : post_api_art st b id now = (r, st')) :
  (is_created r = false -> st' = st)
  /\ (is_created r = true ->
      st !! id = None /\ st' = <[id := new_row b now]> st
      /\ forall k : string, k <> id -> st' !! k = st !! k)
  /\ (forall e, structural_checks b = Some e -> r = e /\ is_created r = false)
  /\ (structural_checks b = None -> remix_stage st b = ParentNotFound ->
      r = Error400 "Original art not found for remix")
  /\ (structural_checks b = None -> remix_stage st b = ParentQueryFailed ->
      r = Error500)
  /\ (forall (c : nat) (err : string),
        structural_checks b = None -> remix_stage st b = Compared (Ret c) ->
        remix_policy 32 c = Some err -> r = Error400 err).
Proof.
  assert (Hins : forall r0 st0, insert_art st b id now = (r0, st0) ->
            (is_created r0 = false -> st0 = st)
            /\ (is_created r0 = true ->
                st !! id = None /\ st0 = <[id := new_row b now]> st
                /\ forall k : string, k <> id -> st0 !! k = st !! k)).
  { intros r0 st0 H. apply insert_art_spec in H as [Hrej Hacc].
    split; [exact Hrej|]. intros Hc. destruct (Hacc Hc) as [Hfresh ->].
    repeat split; [exact Hfresh|]. intros k Hk. now apply lookup_insert_ne. }
  assert (Hrej : forall e, is_created e = false -> (e, st) = (r, st') ->
            (is_created r = false -> st' = st)
            /\ (is_created r = true ->
                st !! id = None /\ st' = <[id := new_row b now]> st
                /\ forall k : string, k <> id -> st' !! k = st !! k)).
  { intros e He H. injection H as <- <-. split; [reflexivity | congruence]. }
  unfold post_api_art in Hpost.
  destruct (structural_checks b) as [e|] eqn:Hs.
  - pose proof (structural_checks_rejects b e Hs) as He.
    destruct (Hrej e He Hpost) as [H1 H2].
    injection Hpost as <- <-.
    repeat split; try assumption; intros; try congruence; apply H2; assumption.
  - destruct (remix_stage st b) as [| | |[c|msg]] eqn:Hr.
    + destruct (Hins r st' Hpost) as [H1 H2].
      repeat split; try assumption; intros; try congruence; apply H2; assumption.
    + destruct (Hrej Error500 eq_refl Hpost) as [H1 H2].
      injection Hpost as <- <-.
      repeat split; try assumption; intros; try congruence; apply H2; assumption.
    + destruct (Hrej (Error400 _) eq_refl Hpost) as [H1 H2].
      injection Hpost as <- <-.
      repeat split; try assumption; intros; try congruence; apply H2; assumption.
    + destruct (remix_policy 32 c) as [err|] eqn:Hp.
      * destruct (Hrej (Error400 _) eq_refl Hpost) as [H1 H2].
        injection Hpost as <- <-.
        repeat split; try assumption; intros; try congruence; apply H2; assumption.
      * destruct (Hins r st' Hpost) as [H1 H2].
        repeat split; try assumption; intros; try congruence; apply H2; assumption.
    + destruct (Hrej Error500 eq_refl Hpost) as [H1 H2].
      injection Hpost as <- <-.
      repeat split; try assumption; intros; try congruence; apply H2; assumption.
Qed.

Lemma rejected_post_changes_nothing_witness :
  post_api_art example_store anonymous_body "new" "now"
  = (Error400 "Invalid author (string, max 64 chars)", example_store)
  /\ (is_created (Error400 "Invalid author (string, max 64 chars)") = false ->
      example_store = example_store)
  /\ post_api_art example_store nul_remix "new" "now" = (Error500, example_store)
  /\ post_api_art example_store orphan_remix "new" "now"
     = (Error400 "Original art not found for remix", example_store).
Proof.
  assert (H : post_api_art example_store anonymous_body "new" "now"
              = (Error400 "Invalid author (string, max 64 chars)", example_store))
    by reflexivity.
  split; [exact H|]. split.
  - apply (rejected_post_changes_nothing example_store example_store anonymous_body
             "new" "now" _ H).
  - split; vm_compute; reflexivity.
Defined.

(** A truthy value is sent as a text, never as NULL. *)
Lemma prepareValue_truthy (v : JValue) :
  truthy v = true -> exists pid : string, prepareValue v = Some pid.
Proof.
  destruct v as [| |[|]|n|s|items|fields]; intros H; try discriminate H;
    eexists; reflexivity.
Qed.

Lemma find_parent_text (st : Store) (v : JValue) (pid : string) :
  prepareValue v = Some pid ->
  find_parent st v
  = match st !! pid with
    | Some row => Ret (Some (pid, row))
    | None =>
        if has_nul pid then Throw "invalid byte sequence for encoding UTF8: 0x00"
        else Ret None
    end.
Proof.
  intros H. unfold find_parent, select_by_id. rewrite H.
  destruct (st !! pid) as [row|]; [reflexivity|].
  now destruct (has_nul pid).
Qed.

Lemma remix_stage_cases (st : Store) (b : Body) :
  match remix_stage st b with
  | Skipped => truthy (body_remix_of b) = false
  | ParentQueryFailed =>
      truthy (body_remix_of b) = true
      /\ exists pid : string,
           prepareValue (body_remix_of b) = Some pid
           /\ st !! pid = None /\ has_nul pid = true
  | ParentNotFound =>
      truthy (body_remix_of b) = true
      /\ exists pid : string,
           prepareValue (body_remix_of b) = Some pid
           /\ st !! pid = None /\ has_nul pid = false
  | Compared c =>
      truthy (body_remix_of b) = true
      /\ exists (pid : string) (orow : Row),
           prepareValue (body_remix_of b) = Some pid /\ st !! pid = Some orow
           /\ c = computeChangeRatio (palette orow) (pixels orow)
                    (body_palette b) (body_pixels b) 32
  end.
Proof.
  unfold remix_stage. destruct (truthy (body_remix_of b)) eqn:Ht; [|reflexivity].
  destruct (prepareValue_truthy _ Ht) as [pid Hpid].
  rewrite (find_parent_text st _ pid Hpid).
  destruct (st !! pid) as [orow|] eqn:Hrow.
  - split; [reflexivity|]. exists pid, orow. now repeat split.
  - destruct (has_nul pid) eqn:Hnul; (split; [reflexivity|]); exists pid;
      now repeat split.
Qed.

(** The stage of the remix block, from the text of [remix_of] and the
    table. *)
Lemma remix_stage_of_text (st : Store) (b : Body) (pid : string) :
  truthy (body_remix_of b) = true ->
  prepareValue (body_remix_of b) = Some pid ->
  remix_stage st b
  = match st !! pid with
    | Some orow =>
        Compared (computeChangeRatio (palette orow) (pixels orow)
                    (body_palette b) (body_pixels b) 32)
    | None => if has_nul pid then ParentQueryFailed else ParentNotFound
    end.
Proof.
  intros Ht Hpid. unfold remix_stage. rewrite Ht, (find_parent_text st _ pid Hpid).
  destruct (st !! pid) as [orow|]; [reflexivity|]. now destruct (has_nul pid).
Qed.

Lemma NumberToString_nat (k : nat) :
  NumberToString (Fin (inject_Z (Z.of_nat k))) = pretty k.
Proof.
  unfold NumberToString.
  assert (Hint : Q_is_integer (inject_Z (Z.of_nat k)) = true)
    by (apply Q_is_integer_spec; exists (Z.of_nat k); reflexivity).
  rewrite Hint, (Q_to_Z_inject _ (Z.of_nat k)) by reflexivity.
  apply pretty_Z_of_nat.
Qed.

(** The stage of a remix whose parent is named by a string and stored. *)
Lemma remix_stage_found (st : Store) (b : Body) (pid : string) (orow : Row) :
  body_remix_of b = JStr pid -> pid <> "" -> st !! pid = Some orow ->
  remix_stage st b
  = Compared (computeChangeRatio (palette orow) (pixels orow)
                (body_palette b) (body_pixels b) 32).
Proof.
  intros Hb Hne Hrow.
  rewrite (remix_stage_of_text st b pid), Hrow; [reflexivity | |].
  - rewrite Hb. cbn [truthy]. now apply negb_true_iff, String.eqb_neq.
  - now rewrite Hb.
Qed.

(** C8: the change-count comparison runs exactly for a submission that
    declares a remix parent (a truthy [remix_of]) which exists, that is,
    whose text as a query parameter is the id of a row; without a declared
    parent the remix block is skipped and the submission goes straight to
    the insertion; with a declared parent that is not in the table the
    submission is rejected and no comparison is made: with 400 when the
    lookup finds no row, with 500 when the lookup itself fails because the
    text holds the character of code 0. *)
Theorem remix_block_gating (st : Store) (b : Body) (id now : string) :
  (remix_stage st b = Skipped <-> truthy (body_remix_of b) = false)
  /\ (remix_stage st b = ParentNotFound
      <-> truthy (body_remix_of b) = true
          /\ exists pid : string,
               prepareValue (body_remix_of b) = Some pid
               /\ st !! pid = None /\ has_nul pid = false)
  /\ (remix_stage st b = ParentQueryFailed
      <-> truthy (body_remix_of b) = true
          /\ exists pid : string,
               prepareValue (body_remix_of b) = Some pid
               /\ st !! pid = None /\ has_nul pid = true)
  /\ (forall c : Result nat,
        remix_stage st b = Compared c
        <-> truthy (body_remix_of b) = true
            /\ exists (pid : string) (orow : Row),
                 prepareValue (body_remix_of b) = Some pid /\ st !! pid = Some orow
                 /\ c = computeChangeRatio (palette orow) (pixels orow)
                          (body_palette b) (body_pixels b) 32)
  /\ (forall s : string, prepareValue (JStr s) = Some s)
  /\ (forall k : nat,
        (Z.of_nat k <= 2 ^ 53)%Z -> prepareValue (JNat k) = Some (pretty k))
  /\ (structural_checks b = None -> remix_stage st b = Skipped ->
      post_api_art st b id now = insert_art st b id now)
  /\ (structural_checks b = None -> remix_stage st b = ParentNotFound ->
      post_api_art st b id now
      = (Error400 "Original art not found for remix", st))
  /\ (structural_checks b = None -> remix_stage st b = ParentQueryFailed ->
      post_api_art st b id now = (Error500, st)).
Proof.
  pose proof (remix_stage_cases st b) as Hcases.
  assert (Hof : forall pid, truthy (body_remix_of b) = true ->
            prepareValue (body_remix_of b) = Some pid ->
            remix_stage st b
            = match st !! pid with
              | Some orow =>
                  Compared (computeChangeRatio (palette orow) (pixels orow)
                              (body_palette b) (body_pixels b) 32)
              | None => if has_nul pid then ParentQueryFailed else ParentNotFound
              end)
    by (intros pid; apply remix_stage_of_text).
  split; [|split; [|split; [|split; [|split; [|split; [|split; [|split]]]]]]].
  - split; intros H.
    + now rewrite H in Hcases.
    + destruct (remix_stage st b); [reflexivity | | |];
        destruct Hcases as [Ht _]; congruence.
  - split; intros H.
    + now rewrite H in Hcases.
    + destruct H as [Ht (pid & Hpid & Hrow & Hnul)].
      now rewrite (Hof pid Ht Hpid), Hrow, Hnul.
  - split; intros H.
    + now rewrite H in Hcases.
    + destruct H as [Ht (pid & Hpid & Hrow & Hnul)].
      now rewrite (Hof pid Ht Hpid), Hrow, Hnul.
  - intros c. split; intros H.
    + now rewrite H in Hcases.
    + destruct H as [Ht (pid & orow & Hpid & Hrow & ->)].
      now rewrite (Hof pid Ht Hpid), Hrow.
  - reflexivity.
  - intros k _. apply (f_equal Some), NumberToString_nat.
  - intros Hs Hr. unfold post_api_art. now rewrite Hs, Hr.
  - intros Hs Hr. unfold post_api_art. now rewrite Hs, Hr.
  - intros Hs Hr. unfold post_api_art. now rewrite Hs, Hr.
Qed.

(** The three ways of a remix whose parent is not there, and a parent
    named by a number. *)
Lemma remix_block_examples :
  remix_stage example_store nul_remix = ParentQueryFailed
  /\ remix_stage example_store orphan_remix = ParentNotFound
  /\ remix_stage example_store half_remix
     = Compared (Ret 512%nat)
  /\ remix_stage numbered_store numbered_remix = Compared (Ret 512%nat)
  /\ post_api_art numbered_store numbered_remix "new" "now"
     = (Created201 "Remix published!" "new" (JNat 7),
        <["new" := new_row numbered_remix "now"]> numbered_store)
  /\ remix_of (new_row numbered_remix "now") = Some "7".
Proof. repeat split; vm_compute; reflexivity. Qed.

(** ** The view counter *)


(** The rounding written out on integers is the rounding of the doubles:
    checked on counts around 2^53 and around the 64-bit limits. *)
Lemma double_round_agrees :
  forallb (fun z =>
             match Math_floor (Z2float z),
                   Math_floor (Z2float z + 1)%float with
             | Some a, Some b =>
                 (a =? double_round z)%Z
                 && (b =? double_round (double_round z + 1))%Z
             | _, _ => false
             end)
          (map (fun k => 9007199254740992 + Z.of_nat k - 8)%Z (seq 0 40)
           ++ map (fun k => 9223372036854775807 + Z.of_nat k - 3000)%Z (seq 0 48)
           ++ map (fun k => 3000 - Z.of_nat k - 9223372036854775808)%Z (seq 0 48)
           ++ [0; 1; 2147483647; 4611686018427387905; 13835058055282163713]%Z)
  = true.
Proof. vm_compute. reflexivity. Qed.





(** The SVG of the example artwork: four squares of side 256. *)
Lemma svg_example :
  svg_rects 2 example_palette example_pixels
  = Ret [mkRect 0 0 256 256 "#000000"; mkRect 256 0 256 256 "#FFFFFF";
         mkRect 0 256 256 256 "#FFFFFF"; mkRect 256 256 256 256 "#000000"].
Proof. vm_compute. reflexivity. Qed.

(** * Further properties *)

(** ** What the palette check accepts *)

Lemma JValue_nested_ind (P : JValue -> Prop) :
  P JUndefined -> P JNull -> (forall b, P (JBool b)) -> (forall n, P (JNum n)) ->
  (forall s, P (JStr s)) ->
  (forall items, Forall P items -> P (JArr items)) ->
  (forall fields, P (JObj fields)) ->
  forall v, P v.
Proof.
  intros Hu Hn Hb Hnum Hs Ha Ho. fix IH 1.
  intros [| |b|n|s|items|fields];
    [exact Hu | exact Hn | apply Hb | apply Hnum | apply Hs | | apply Ho].
  apply Ha. revert items. fix IHl 1.
  intros [|x items]; constructor; [apply IH | apply IHl].
Qed.

Lemma ToString_JArr (items : list JValue) :
  ToString (JArr items) = (let* l := elems_of items in Ret (join_with "," l)).
Proof.
  reflexivity.
Qed.

Lemma pretty_N_char_not_hash (x : N) : pretty_N_char x <> "#"%char.
Proof. unfold pretty_N_char. repeat case_match; discriminate. Qed.

Lemma pretty_N_go_head (x : N) (s : string) :
  (0 < x)%N ->
  exists (c : ascii) (rest : string),
    pretty_N_go x s = String c rest /\ c <> "#"%char.
Proof.
  revert s. induction (N.lt_wf_0 x) as [x _ IH]. intros s Hx.
  rewrite pretty_N_go_step by exact Hx.
  destruct (N.eq_dec (x / 10)%N 0%N) as [E|E].
  - rewrite E, pretty_N_go_0. eexists _, _. split; [reflexivity|].
    apply pretty_N_char_not_hash.
  - apply IH.
    + apply N.div_lt; [exact Hx | reflexivity].
    + destruct (x / 10)%N; [congruence | reflexivity].
Qed.

Lemma pretty_Z_head (z : Z) :
  exists (c : ascii) (rest : string), pretty z = String c rest /\ c <> "#"%char.
Proof.
  destruct z as [|p|p].
  - eexists _, _. split; [reflexivity | discriminate].
  - unfold pretty, pretty_Z, pretty, pretty_positive, pretty, pretty_N.
    destruct (decide (N.pos p = 0%N)) as [E|_]; [discriminate E|].
    apply pretty_N_go_head. lia.
  - eexists _, _. split; [reflexivity | discriminate].
Qed.

Lemma NumberToString_head (n : Number) :
  exists (c : ascii) (rest : string),
    NumberToString n = String c rest /\ c <> "#"%char.
Proof.
  destruct n as [q|[|]]; try (eexists _, _; split; [reflexivity | discriminate]).
  unfold NumberToString. destruct (Q_is_integer q).
  - apply pretty_Z_head.
  - destruct (Qnum q <? 0)%Z.
    + eexists _, _. split; [reflexivity | discriminate].
    + destruct (pretty_Z_head (Z.abs (Qnum q) / Z.pos (Qden q))) as (c & rest & -> & Hc).
      eexists _, _. split; [reflexivity | exact Hc].
Qed.

Lemma hex_color_regex_head (c : ascii) (rest : string) :
  c <> "#"%char -> hex_color_regex (String c rest) = false.
Proof.
  intros Hc. unfold hex_color_regex.
  destruct c as [b0 b1 b2 b3 b4 b5 b6 b7].
  destruct b0, b1, b2, b3, b4, b5, b6, b7; try reflexivity.
  now contradiction Hc.
Qed.

(** No character of a matching string is a comma. *)
Lemma hex_color_regex_chars (s : string) :
  hex_color_regex s = true ->
  forallb (fun c => negb (Ascii.eqb c ","%char)) (list_ascii_of_string s) = true.
Proof.
  destruct s as [|c rest]; [discriminate|].
  destruct (Ascii.eqb_spec c "#"%char) as [->|Hne].
  - unfold hex_color_regex.
    intros H. apply andb_prop in H as [_ Hall]. cbn [list_ascii_of_string forallb].
    apply andb_true_intro. split; [reflexivity|].
    rewrite forallb_forall in Hall |- *. intros d Hd. specialize (Hall d Hd).
    destruct d as [b0 b1 b2 b3 b4 b5 b6 b7].
    destruct b0, b1, b2, b3, b4, b5, b6, b7; try reflexivity; discriminate Hall.
  - intros H. rewrite hex_color_regex_head in H by exact Hne. discriminate H.
Qed.

Lemma list_ascii_app (a b : string) :
  list_ascii_of_string (a +:+ b)
  = (list_ascii_of_string a ++ list_ascii_of_string b)%list.
Proof. induction a as [|c a IH]; [reflexivity|]. cbn. now rewrite <- IH. Qed.

Lemma hex_color_regex_comma (a b : string) :
  hex_color_regex (a +:+ "," +:+ b) = false.
Proof.
  destruct (hex_color_regex (a +:+ "," +:+ b)) eqn:E; [|reflexivity].
  apply hex_color_regex_chars in E.
  rewrite !list_ascii_app, forallb_app in E. cbn in E.
  apply andb_prop in E as [_ E]. discriminate E.
Qed.

Lemma join_two (sep : string) (x y : option string) (rest : list (option string)) :
  join_with sep (x :: y :: rest)
  = default "" x +:+ sep +:+ join_with sep (y :: rest).
Proof. reflexivity. Qed.


Lemma elems_of_length (l : list JValue) (tl : list (option string)) :
  elems_of l = Ret tl -> length tl = length l.
Proof.
  revert tl. induction l as [|x l IH]; intros tl H.
  - injection H as <-. reflexivity.
  - cbn [elems_of] in H.
    assert (Hcase : exists o tl', elems_of l = Ret tl' /\ tl = o :: tl').
    { destruct x; destruct (elems_of l) as [tl'|e]; cbn [bind] in H;
        try discriminate H;
        try (injection H as <-; eexists _, _; split; reflexivity);
        match type of H with
        | context [ToString ?a] =>
            destruct (ToString a); cbn [bind] in H; try discriminate H;
            injection H as <-; eexists _, _; split; reflexivity
        end. }
    destruct Hcase as (o & tl' & Htl & ->). cbn [length]. f_equal. now apply IH.
Qed.

Lemma elems_of_single (x : JValue) :
  x <> JUndefined -> x <> JNull ->
  elems_of [x] = (let* s := ToString x in Ret [Some s]).
Proof.
  intros Hu Hn. destruct x; try congruence; cbn [elems_of bind];
    match goal with
    | |- context [ToString ?a] => destruct (ToString a); reflexivity
    end.
Qed.

(** The test of one palette element succeeds exactly on a colour string
    or a colour string wrapped in one-element arrays. *)
Lemma regex_test_ColorLike (v : JValue) :
  regex_test v = Ret true <-> ColorLike v.
Proof.
  induction v as [| |b|n|s|items IH|fields] using JValue_nested_ind.
  - split; [discriminate | intros H; inversion H].
  - split; [discriminate | intros H; inversion H].
  - split; [destruct b; discriminate | intros H; inversion H].
  - split; [|intros H; inversion H].
    unfold regex_test. cbn [ToString bind].
    destruct (NumberToString_head n) as (c & rest & -> & Hc).
    now rewrite hex_color_regex_head.
  - unfold regex_test. cbn [ToString bind]. split.
    + intros [= H]. constructor. now apply hex_color_regex_spec.
    + intros H. inversion H; subst. f_equal. now apply hex_color_regex_spec.
  - unfold regex_test. rewrite ToString_JArr.
    destruct items as [|x [|y rest]].
    + split; [discriminate | intros H; inversion H].
    + inversion IH as [|? ? IHx _]; subst. unfold regex_test in IHx.
      assert (Hnull : x = JUndefined \/ x = JNull \/ (x <> JUndefined /\ x <> JNull)).
      { destruct x; auto; right; right; split; discriminate. }
      destruct Hnull as [->|[->|[Hu Hn]]].
      * split; [discriminate | intros H; inversion H as [|? Hx]; inversion Hx].
      * split; [discriminate | intros H; inversion H as [|? Hx]; inversion Hx].
      * rewrite (elems_of_single x Hu Hn).
        destruct (ToString x) as [sx|e]; cbn [bind] in *.
        -- change (join_with "," [Some sx]) with sx. rewrite IHx.
           split; [intros H; now constructor | intros H; now inversion H].
        -- split; [discriminate|]. intros H. inversion H as [|? Hx]; subst.
           apply IHx in Hx. discriminate Hx.
    + split; [|intros H; inversion H].
      destruct (elems_of (x :: y :: rest)) as [l0|e] eqn:E; [|discriminate].
      apply elems_of_length in E.
      destruct l0 as [|o [|o' l0]]; try discriminate E.
      cbn [bind]. now rewrite join_two, hex_color_regex_comma.
  - split; [|intros H; inversion H].
    unfold regex_test. cbn [ToString]. destruct (has_own "toString" fields);
      discriminate.
Qed.

Lemma every_Forall (items : list JValue) :
  every regex_test items = Ret true
  <-> Forall (fun x => regex_test x = Ret true) items.
Proof.
  induction items as [|x items IH]; cbn [every].
  - split; [constructor | reflexivity].
  - destruct (regex_test x) as [[|]|e] eqn:E; cbn [bind].
    + rewrite IH. split; [now constructor | intros H; now inversion H].
    + split; [discriminate | intros H; inversion H; congruence].
    + split; [discriminate | intros H; inversion H; congruence].
Qed.

(** X1: [validatePalette] returns true exactly on an array of 1 to 256
    elements each of which is a colour string or a colour string wrapped in
    one-element arrays; nothing else is ever accepted. *)
Theorem validatePalette_accepts (v : JValue) :
  validatePalette v = Ret true
  <-> exists items : list JValue,
        v = JArr items /\ (1 <= length items <= 256)%nat
        /\ Forall ColorLike items.
Proof.
  split.
  - destruct v as [| | | | |items|]; try discriminate.
    unfold validatePalette.
    destruct (Nat.ltb_spec (length items) 1) as [H1|H1]; [discriminate|].
    destruct (Nat.ltb_spec 256 (length items)) as [H2|H2]; [discriminate|].
    cbn [orb]. intros H. exists items. split; [reflexivity|]. split; [lia|].
    apply every_Forall in H. eapply Forall_impl; [exact H|].
    intros x Hx. now apply regex_test_ColorLike.
  - intros (items & -> & Hlen & Hall). unfold validatePalette.
    destruct (Nat.ltb_spec (length items) 1) as [H1|H1]; [lia|].
    destruct (Nat.ltb_spec 256 (length items)) as [H2|H2]; [lia|].
    cbn [orb]. apply every_Forall. eapply Forall_impl; [exact Hall|].
    intros x Hx. now apply regex_test_ColorLike.
Qed.


Lemma ColorLike_brightness (v : JValue) :
  ColorLike v -> exists f : float, color_brightness v = Ret f.
Proof.
  intros [s Hs|w Hw].
  - destruct (color_brightness_hex s Hs) as (r & g & b & _ & _ & _ & _ & H).
    eexists. exact H.
  - eexists. reflexivity.
Qed.

(** ** Rendering what the creation handler stored *)

Lemma valid_palette_items (pal : JValue) :
  validatePalette pal = Ret true ->
  exists items : list JValue,
    pal = JArr items /\ (1 <= length items <= 256)%nat /\ Forall ColorLike items.
Proof.
  destruct pal as [| | | | |items|]; try discriminate.
  unfold validatePalette.
  destruct (Nat.ltb_spec (length items) 1) as [H1|H1]; [discriminate|].
  destruct (Nat.ltb_spec 256 (length items)) as [H2|H2]; [discriminate|].
  cbn [orb]. intros H. exists items. split; [reflexivity|]. split; [lia|].
  apply every_Forall in H. eapply Forall_impl; [exact H|].
  intros x Hx. now apply regex_test_ColorLike.
Qed.

Lemma RowValid_shape (row : Row) :
  RowValid row ->
  exists items : list JValue,
    palette row = JArr items /\ (1 <= length items <= 256)%nat
    /\ Forall ColorLike items
    /\ GridSpec (pixels row) 32 (Z.of_nat (length items)).
Proof.
  intros (_ & Hpal & Hpix & _).
  destruct (valid_palette_items _ Hpal) as (items & Hitems & Hlen & Hall).
  exists items. repeat split; try assumption; try lia.
  rewrite Hitems in Hpix. cbn [js_length] in Hpix. now apply grid_of_check.
Qed.

(** In a grid that fits the palette every cell resolves to an element of
    the palette. *)
Lemma resolve_valid (sz : Z) (items : list JValue) (pix : JValue) (y x : nat) :
  GridSpec pix sz (Z.of_nat (length items)) ->
  (Z.of_nat y < sz)%Z -> (Z.of_nat x < sz)%Z ->
  exists item : JValue,
    items !! pixel_index (cell pix y x) = Some item
    /\ resolve (JArr items) pix y x = Ret item.
Proof.
  intros [rows [-> [Hlen Hrows]]] Hy Hx.
  destruct (lookup_lt_is_Some_2 rows y) as [row Hrow]; [lia|].
  rewrite Forall_forall in Hrows.
  destruct (Hrows row) as [entries [-> [Hlen' Hentries]]];
    [eapply list_elem_of_lookup_2, Hrow|].
  destruct (lookup_lt_is_Some_2 entries x) as [p Hp]; [lia|].
  rewrite Forall_forall in Hentries.
  assert (Hidx : IsIndex (Z.of_nat (length items)) p)
    by (apply Hentries; eapply list_elem_of_lookup_2, Hp).
  destruct (get_prop_index items p Hidx) as [item [Hitem Hget]].
  exists item.
  assert (Hcell : cell (JArr rows) y x = p).
  { unfold cell. now rewrite Hrow, Hp. }
  split; [now rewrite Hcell|].
  unfold resolve. rewrite (get_prop_nat rows y _ Hrow). cbn [bind].
  rewrite (get_prop_nat entries x _ Hp). cbn [bind]. exact Hget.
Qed.

Lemma chars_lookup_length (n : nat) :
  (String.length (default "" (chars !! n)) <= 1)%nat.
Proof.
  do 10 (destruct n as [|n]; [vm_compute; lia|]).
  change (chars !! S (S (S (S (S (S (S (S (S (S n)))))))))) with (@nil string !! n).
  destruct n; vm_compute; lia.
Qed.

Lemma char_at_length (i : option Z) :
  (String.length (default "" (char_at i)) <= 1)%nat.
Proof.
  destruct i as [z|]; [|cbn; lia]. unfold char_at.
  destruct (0 <=? z)%Z; [apply chars_lookup_length | cbn; lia].
Qed.

Lemma length_append (a b : string) :
  String.length (a +:+ b) = (String.length a + String.length b)%nat.
Proof. induction a as [|c a IH]; [reflexivity|]. cbn. now rewrite <- IH. Qed.

Lemma join_short (cs : list (option string)) :
  Forall (fun o => (String.length (default "" o) <= 1)%nat) cs ->
  (String.length (join_with "" cs) <= length cs)%nat.
Proof.
  induction 1 as [|o cs Ho Hcs IH]; [cbn; lia|].
  destruct cs as [|o' cs].
  - cbn [join_with length]. lia.
  - rewrite join_two, !length_append. cbn [String.length length] in *. lia.
Qed.

Lemma RampText_append (a b : string) :
  RampText a -> RampText b -> RampText (a +:+ b).
Proof.
  unfold RampText. rewrite list_ascii_app. intros Ha Hb. now apply Forall_app.
Qed.

Lemma chars_lookup_ramp (n : nat) : RampText (default "" (chars !! n)).
Proof.
  do 10 (destruct n as [|n];
         [repeat constructor; cbn; tauto|]).
  change (chars !! S (S (S (S (S (S (S (S (S (S n)))))))))) with (@nil string !! n).
  destruct n; constructor.
Qed.

Lemma char_at_ramp (i : option Z) : RampText (default "" (char_at i)).
Proof.
  destruct i as [z|]; [|constructor]. unfold char_at.
  destruct (0 <=? z)%Z; [apply chars_lookup_ramp | constructor].
Qed.

Lemma join_ramp (cs : list (option string)) :
  Forall (fun o => RampText (default "" o)) cs -> RampText (join_with "" cs).
Proof.
  induction 1 as [|o cs Ho Hcs IH]; [constructor|].
  destruct cs as [|o' cs]; [exact Ho|].
  rewrite join_two. apply RampText_append; [exact Ho|].
  now apply RampText_append; [constructor|].
Qed.

Lemma ascii_row_valid (bl : list float) (sz len : Z) (entries : list JValue) :
  Z.of_nat (length entries) = sz ->
  Forall (IsIndex len) entries ->
  exists line : string,
    ascii_row bl (JArr entries) = Ret line
    /\ (Z.of_nat (String.length line) <= sz)%Z
    /\ RampText line.
Proof.
  intros Hlen Hentries.
  destruct (mapM_Forall (ascii_char bl)
              (fun o => (String.length (default "" o) <= 1)%nat
                        /\ RampText (default "" o)) entries)
    as [cs [Hcs [Hl Hshort]]].
  { eapply Forall_impl; [exact Hentries|]. intros p Hp.
    apply ToString_index in Hp as [Hs _].
    unfold ascii_char, brightness_at. rewrite Hs. cbn [bind].
    eexists. split; [reflexivity|].
    split; [apply char_at_length | apply char_at_ramp]. }
  exists (join_with "" cs). unfold ascii_row. rewrite Hcs. cbn [bind].
  split; [reflexivity|]. split.
  - assert (H : Forall (fun o => (String.length (default "" o) <= 1)%nat) cs)
      by (eapply Forall_impl; [exact Hshort|]; now intros o [H _]).
    apply join_short in H. lia.
  - apply join_ramp. eapply Forall_impl; [exact Hshort|]. now intros o [_ H].
Qed.

Lemma ascii_art_valid (row : Row) :
  RowValid row ->
  exists lines : list string,
    ascii_art (palette row) (pixels row) = Ret (String.concat line_break lines)
    /\ length lines = 32%nat
    /\ Forall (fun l => (String.length l <= 32)%nat /\ RampText l) lines.
Proof.
  intros Hrow.
  destruct (RowValid_shape row Hrow) as (items & -> & _ & Hall & rows & -> & Hlen & Hrows).
  destruct (mapM_Forall color_brightness (fun _ => True) items) as [bl [Hbl _]].
  { eapply Forall_impl; [exact Hall|]. intros v Hv.
    destruct (ColorLike_brightness v Hv) as [f Hf]. now exists f. }
  destruct (mapM_Forall (ascii_row bl)
              (fun l => (String.length l <= 32)%nat /\ RampText l) rows)
    as [lines [Hlines [Hl Hshort]]].
  { eapply Forall_impl; [exact Hrows|].
    intros r [entries [-> [He Hentries]]].
    destruct (ascii_row_valid bl 32 _ entries He Hentries)
      as [line [Hline [Hle Hramp]]].
    exists line. split; [exact Hline|]. split; [lia | exact Hramp]. }
  exists lines. unfold ascii_art. rewrite Hbl. cbn [bind]. rewrite Hlines.
  cbn [bind]. rewrite join_with_concat.
  split; [reflexivity|]. split; [lia | exact Hshort].
Qed.

(** A text of lines without a line break holds one line break less than
    it has lines. *)
Lemma count_line_breaks (lines : list string) :
  Forall RampText lines -> lines <> [] ->
  count_occ ascii_dec (list_ascii_of_string (String.concat line_break lines))
            "010"%char
  = (length lines - 1)%nat.
Proof.
  assert (Hnone : forall l, RampText l ->
            count_occ ascii_dec (list_ascii_of_string l) "010"%char = 0%nat).
  { intros l Hl. apply count_occ_not_In. intros Hin.
    unfold RampText in Hl. rewrite Forall_forall in Hl.
    apply list_elem_of_In, Hl in Hin. cbn in Hin.
    repeat (destruct Hin as [Hin|Hin]; [discriminate Hin|]). exact Hin. }
  induction 1 as [|a lines Ha Hall IH]; intros Hne; [congruence|].
  destruct lines as [|b lines].
  - cbn [String.concat length]. now rewrite Hnone.
  - change (String.concat line_break (a :: b :: lines))
      with (a +:+ line_break +:+ String.concat line_break (b :: lines)).
    rewrite !list_ascii_app, !count_occ_app, Hnone by exact Ha.
    rewrite IH by discriminate. cbn [length]. cbn. lia.
Qed.

(** ** The SVG document as text *)












(** The document of the example artwork, character by character. *)
Lemma svg_example_text :
  svg_document (mkRow "Agent" None 2 example_palette example_pixels "" 0 None)
  = Ret ("<?xml version=" +:+ quoted "1.0" +:+ " encoding=" +:+ quoted "UTF-8"
         +:+ "?>" +:+ String "010"%char
         ("<svg xmlns=" +:+ quoted "http://www.w3.org/2000/svg"
          +:+ " width=" +:+ quoted "512" +:+ " height=" +:+ quoted "512"
          +:+ " viewBox=" +:+ quoted "0 0 512 512" +:+ ">" +:+ String "010"%char
         ("  <title>Untitled by Agent</title>" +:+ String "010"%char
         ("  <rect x=" +:+ quoted "0" +:+ " y=" +:+ quoted "0"
          +:+ " width=" +:+ quoted "256" +:+ " height=" +:+ quoted "256"
          +:+ " fill=" +:+ quoted "#000000" +:+ "/>"
          +:+ "<rect x=" +:+ quoted "256" +:+ " y=" +:+ quoted "0"
          +:+ " width=" +:+ quoted "256" +:+ " height=" +:+ quoted "256"
          +:+ " fill=" +:+ quoted "#FFFFFF" +:+ "/>"
          +:+ "<rect x=" +:+ quoted "0" +:+ " y=" +:+ quoted "256"
          +:+ " width=" +:+ quoted "256" +:+ " height=" +:+ quoted "256"
          +:+ " fill=" +:+ quoted "#FFFFFF" +:+ "/>"
          +:+ "<rect x=" +:+ quoted "256" +:+ " y=" +:+ quoted "256"
          +:+ " width=" +:+ quoted "256" +:+ " height=" +:+ quoted "256"
          +:+ " fill=" +:+ quoted "#000000" +:+ "/>" +:+ String "010"%char
         "</svg>")))).
Proof. vm_compute. reflexivity. Qed.

(** ** The remix comparison on stored rows *)

Lemma foldM_bounded {A : Type} (g : A -> Result bool) (l : list A) (c : nat) :
  (forall x, In x l -> exists d, g x = Ret d) ->
  exists n : nat,
    foldM (fun changed x => let* d := g x in Ret (if d then S changed else changed))
          c l = Ret n
    /\ (c <= n <= c + length l)%nat.
Proof.
  revert c. induction l as [|x l IH]; intros c H.
  - exists c. split; [reflexivity | cbn; lia].
  - destruct (H x) as [d Hd]; [now left|].
    destruct (IH (if d then S c else c)) as [n [Hn Hb]];
      [intros; apply H; now right|].
    exists n. cbn [foldM]. rewrite Hd. cbn [bind]. split; [exact Hn|].
    cbn [length]. destruct d; lia.
Qed.

Lemma computeChangeRatio_valid (oitems items : list JValue) (opix pix : JValue) :
  GridSpec opix 32 (Z.of_nat (length oitems)) ->
  GridSpec pix 32 (Z.of_nat (length items)) ->
  exists n : nat,
    computeChangeRatio (JArr oitems) opix (JArr items) pix 32 = Ret n
    /\ (n <= 1024)%nat.
Proof.
  intros Ho Hn. unfold computeChangeRatio. change (Z.to_nat 32) with 32%nat.
  assert (Hrow : forall (y c : nat), (y < 32)%nat -> exists n : nat,
            foldM (fun changed x =>
                     let* d := cell_changed (JArr oitems) opix (JArr items) pix y x in
                     Ret (if d then S changed else changed)) c (seq 0 32) = Ret n
            /\ (c <= n <= c + 32)%nat).
  { intros y c Hy.
    destruct (foldM_bounded (cell_changed (JArr oitems) opix (JArr items) pix y)
                (seq 0 32) c) as [n [Hf Hb]].
    - intros x Hx. apply in_seq in Hx.
      destruct (resolve_valid 32 oitems opix y x Ho) as [oi [_ Hor]]; [lia|lia|].
      destruct (resolve_valid 32 items pix y x Hn) as [ni [_ Hnr]]; [lia|lia|].
      unfold cell_changed. rewrite Hor, Hnr. eexists. reflexivity.
    - exists n. rewrite length_seq in Hb. now split. }
  assert (Hrows : forall (k s c : nat), (s + k <= 32)%nat -> exists n : nat,
            foldM (fun changed y =>
                     foldM (fun changed x =>
                              let* d := cell_changed (JArr oitems) opix
                                          (JArr items) pix y x in
                              Ret (if d then S changed else changed))
                           changed (seq 0 32)) c (seq s k) = Ret n
            /\ (n <= c + k * 32)%nat).
  { induction k as [|k IH]; intros s c Hk.
    - exists c. split; [reflexivity | lia].
    - destruct (Hrow s c) as [m [Hm Hmb]]; [lia|].
      destruct (IH (S s) m) as [n [Hn' Hnb]]; [lia|].
      exists n. change (seq s (S k)) with (s :: seq (S s) k).
      cbn [foldM]. rewrite Hm. cbn [bind]. split; [exact Hn' | lia]. }
  destruct (Hrows 32%nat 0%nat 0%nat) as [n [Hf Hb]]; [lia|].
  exists n. split; [exact Hf | lia].
Qed.

(** ** What the table holds after any sequence of requests *)

Lemma truthy_string_length (v : JValue) (n : nat) :
  truthy v = true -> typeof_string v = true -> longer_than n v = false ->
  exists s : string, v = JStr s /\ (1 <= String.length s <= n)%nat.
Proof.
  destruct v as [| | | |s| |]; try discriminate. cbn.
  intros Ht _ Hl. exists s. split; [reflexivity|].
  apply Nat.ltb_ge in Hl. destruct s; [discriminate Ht | cbn in *; lia].
Qed.

Lemma structural_checks_passed (b : Body) :
  structural_checks b = None ->
  (exists a : string, body_author b = JStr a /\ (1 <= String.length a <= 64)%nat)
  /\ match or_null (body_title b) with
     | Some t => (1 <= String.length t <= 128)%nat
     | None => True
     end
  /\ is_32 (body_size b) = true
  /\ validatePalette (body_palette b) = Ret true
  /\ validatePixels (body_pixels b) 32 (js_length (body_palette b)) = true.
Proof.
  unfold structural_checks.
  destruct (truthy (body_author b)) eqn:Ha; [|discriminate].
  destruct (typeof_string (body_author b)) eqn:Hs; [|discriminate].
  destruct (longer_than 64 (body_author b)) eqn:Hl; [discriminate|].
  cbn [negb orb].
  destruct (truthy (body_title b)
            && (negb (typeof_string (body_title b))
                || longer_than 128 (body_title b))) eqn:Ht; [discriminate|].
  destruct (is_32 (body_size b)) eqn:H32; [|discriminate]. cbn [negb].
  destruct (validatePalette (body_palette b)) as [[|]|e] eqn:Hp; try discriminate.
  destruct (validatePixels (body_pixels b) 32 (js_length (body_palette b))) eqn:Hx;
    [|discriminate].
  intros _. split; [now apply truthy_string_length|].
  split; [|now repeat split].
  unfold or_null. destruct (body_title b) as [| | | |t| |] eqn:Et; try exact I.
  destruct (truthy (JStr t)) eqn:Htt; [|exact I].
  cbn [andb typeof_string negb orb] in Ht.
  destruct (truthy_string_length (JStr t) 128 Htt eq_refl Ht) as [t' [[= <-] Hlen]].
  exact Hlen.
Qed.

Lemma StoreValid_empty : StoreValid ∅.
Proof. intros id row H. rewrite lookup_empty in H. discriminate H. Qed.

(** The text of a truthy value is not empty. *)
Lemma prepareValue_nonempty (v : JValue) (pid : string) :
  truthy v = true -> prepareValue v = Some pid -> pid <> "".
Proof.
  destruct v as [| |[|]|n|s|items|fields]; intros Ht Hp; try discriminate Ht;
    injection Hp as <-; try discriminate.
  - destruct (NumberToString_head n) as (c & rest & -> & _). discriminate.
  - intros ->. discriminate Ht.
Qed.

Lemma remix_param_falsy (v : JValue) : truthy v = false -> remix_param v = None.
Proof. intros H. unfold remix_param. now rewrite H. Qed.

Lemma insert_art_valid (st st' : Store) (b : Body) (id now : string) (r : Response) :
  StoreValid st ->
  structural_checks b = None ->
  (forall pid, remix_param (body_remix_of b) = Some pid -> is_Some (st !! pid)) ->
  insert_art st b id now = (r, st') ->
  StoreValid st'.
Proof.
  intros Hst Hchecks Hparent. unfold insert_art.
  destruct (st !! id) as [old|] eqn:Hid; [now intros [= <- <-]|].
  destruct (has_nul _ || has_nul _); [now intros [= <- <-]|].
  intros [= <- <-].
  destruct (structural_checks_passed b Hchecks)
    as ((a & Ha & Hlen) & Htitle & _ & Hpal & Hpix).
  intros k row Hk. destruct (decide (k = id)) as [->|Hne].
  - rewrite lookup_insert_eq in Hk. injection Hk as <-. split.
    + unfold RowValid, new_row; cbn [size palette pixels views author title].
      rewrite Ha. cbn [string_of]. repeat split; try assumption; try lia.
      unfold int4_max; lia.
    + intros pid Hp. cbn [new_row remix_of] in Hp.
      destruct (Hparent pid Hp) as [prow Hprow]. split; [|split].
      * unfold remix_param in Hp.
        destruct (truthy (body_remix_of b)) eqn:Ht; [|discriminate Hp].
        now apply (prepareValue_nonempty _ _ Ht Hp).
      * intros ->. congruence.
      * rewrite lookup_insert_ne by congruence. now exists prow.
  - rewrite lookup_insert_ne in Hk by congruence.
    destruct (Hst k row Hk) as [Hrow Href]. split; [exact Hrow|].
    intros pid Hp. destruct (Href pid Hp) as (Hne0 & Hself & [prow Hprow]).
    split; [exact Hne0|]. split; [exact Hself|].
    destruct (decide (pid = id)) as [->|Hne']; [congruence|].
    rewrite lookup_insert_ne by congruence. now exists prow.
Qed.

Lemma post_api_art_valid (st : Store) (b : Body) (id now : string) :
  StoreValid st -> StoreValid (snd (post_api_art st b id now)).
Proof.
  intros Hst. unfold post_api_art.
  destruct (structural_checks b) as [r|] eqn:Hchecks; [exact Hst|].
  pose proof (remix_stage_cases st b) as Hcases.
  destruct (remix_stage st b) as [| | |[changed|e]]; try exact Hst.
  - destruct (insert_art st b id now) as [r st'] eqn:Hins.
    eapply insert_art_valid; [exact Hst | exact Hchecks | | exact Hins].
    intros pid Hp. rewrite remix_param_falsy in Hp by exact Hcases. discriminate Hp.
  - destruct (remix_policy 32 changed); [exact Hst|].
    destruct (insert_art st b id now) as [r st'] eqn:Hins.
    eapply insert_art_valid; [exact Hst | exact Hchecks | | exact Hins].
    destruct Hcases as [Ht (pid & orow & Hb & Horow & _)].
    intros pid' Hp. unfold remix_param in Hp. rewrite Ht, Hb in Hp.
    injection Hp as <-. now exists orow.
Qed.

Lemma increment_views_valid (st : Store) (id : string) (row : Row) :
  StoreValid st -> st !! id = Some row -> (views row + 1 <= int4_max)%Z ->
  StoreValid (alter increment_views id st).
Proof.
  intros Hst Hrow Hmax k r Hk.
  assert (Hdom : forall pid, is_Some (st !! pid) ->
                   is_Some (alter increment_views id st !! pid)).
  { intros pid [p Hp]. destruct (decide (pid = id)) as [->|Hne].
    - rewrite lookup_alter_eq, Hp. now eexists.
    - rewrite lookup_alter_ne by congruence. now exists p. }
  destruct (decide (k = id)) as [->|Hne].
  - rewrite lookup_alter_eq, Hrow in Hk. injection Hk as <-.
    destruct (Hst id row Hrow) as [(Hsz & Hpal & Hpix & Hv & Ha & Ht) Href].
    split.
    + unfold RowValid, increment_views;
        cbn [size palette pixels views author title].
      repeat split; try assumption; lia.
    + intros pid Hp. destruct (Href pid Hp) as (Hne0 & Hself & Hsome).
      split; [exact Hne0|]. split; [exact Hself | now apply Hdom].
  - rewrite lookup_alter_ne in Hk by congruence.
    destruct (Hst k r Hk) as [Hr Href]. split; [exact Hr|].
    intros pid Hp. destruct (Href pid Hp) as (Hne0 & Hself & Hsome).
    split; [exact Hne0|]. split; [exact Hself | now apply Hdom].
Qed.

Lemma handle_valid (st : Store) (r : Request) :
  StoreValid st -> StoreValid (snd (handle st r)).
Proof.
  intros Hst. destruct r as [b id now|id|id|id]; cbn [handle].
  - now apply post_api_art_valid.
  - unfold get_api_art_id, select_by_id.
    destruct (st !! id) as [row|] eqn:Hrow; [|now destruct (has_nul id)].
    destruct (Z.ltb_spec int4_max (views row + 1)) as [Hov|Hok]; [exact Hst|].
    cbn [snd]. now apply (increment_views_valid st id row).
  - unfold get_api_art_id_ascii, select_by_id.
    destruct (st !! id) as [row|]; [|now destruct (has_nul id)].
    now destruct (ascii_art _ _).
  - unfold get_art_id_image, select_by_id.
    destruct (st !! id) as [row|]; [|now destruct (has_nul id)].
    now destruct (svg_document _).
Qed.

Lemma run_valid (st : Store) (rs : list Request) :
  StoreValid st -> StoreValid (run st rs).
Proof.
  revert st. induction rs as [|r rs IH]; intros st Hst; [exact Hst|].
  cbn [run fold_left]. apply IH. now apply handle_valid.
Qed.

(** X2: whatever requests the service has answered since the table was
    empty, every stored row has size 32, a palette and a grid that pass the
    two validators, a view count between 0 and the INTEGER maximum, an
    author of 1 to 64 characters and a title that is absent or of 1 to 128
    characters; and every remix points, by a non-empty id, to a stored row
    other than itself. *)
Theorem reachable_store_valid (rs : list Request) : StoreValid (run ∅ rs).
Proof. apply run_valid, StoreValid_empty. Qed.

(** X3: every artwork in a table of valid rows can be rendered as text:
    the ASCII handler answers 200, never 500, and leaves the table as it
    is; the text is 32 lines joined by the character of code 10, each line
    of at most 32 characters of the ramp, so that it holds exactly 31 line
    breaks. *)
Theorem stored_art_renders_ascii (st : Store) (id : string) (row : Row)
    (Hst : StoreValid st) (Hrow : st !! id = Some row) :
  exists lines : list string,
    get_api_art_id_ascii st id
    = (Ok200Text (String.concat (String "010"%char EmptyString) lines), st)
    /\ length lines = 32%nat
    /\ Forall (fun l => (String.length l <= 32)%nat
                        /\ Forall (fun c => In c (list_ascii_of_string " .:-=+*#%@"))
                                  (list_ascii_of_string l)) lines
    /\ count_occ ascii_dec
         (list_ascii_of_string (String.concat (String "010"%char EmptyString) lines))
         "010"%char
       = 31%nat.
Proof.
  destruct (Hst id row Hrow) as [Hvalid _].
  destruct (ascii_art_valid row Hvalid) as (lines & Hart & Hlen & Hshort).
  exists lines. unfold get_api_art_id_ascii.
  rewrite (select_by_id_Some st id row Hrow), Hart.
  split; [reflexivity|]. split; [exact Hlen|]. split; [exact Hshort|].
  change (String "010"%char EmptyString) with line_break.
  rewrite count_line_breaks.
  - now rewrite Hlen.
  - eapply Forall_impl; [exact Hshort|]. now intros l [_ H].
  - intros ->. discriminate Hlen.
Qed.

Lemma nested_store_valid :
  StoreValid (run ∅ [ReqCreate nested_body "new" "now"])
  /\ run ∅ [ReqCreate nested_body "new" "now"] !! "new"
     = Some (new_row nested_body "now").
Proof.
  split; [apply run_valid, StoreValid_empty | vm_compute; reflexivity].
Defined.

Lemma stored_art_renders_ascii_witness :
  StoreValid (run ∅ [ReqCreate nested_body "new" "now"])
  /\ run ∅ [ReqCreate nested_body "new" "now"] !! "new"
     = Some (new_row nested_body "now")
  /\ exists lines : list string,
       get_api_art_id_ascii (run ∅ [ReqCreate nested_body "new" "now"]) "new"
       = (Ok200Text (String.concat (String "010"%char EmptyString) lines),
          run ∅ [ReqCreate nested_body "new" "now"])
       /\ length lines = 32%nat.
Proof.
  destruct nested_store_valid as [Hst Hrow].
  split; [exact Hst|]. split; [exact Hrow|].
  destruct (stored_art_renders_ascii _ "new" _ Hst Hrow) as (lines & H & Hl & _).
  exists lines. split; assumption.
Defined.



(** ** Failures and round trips of the creation handler *)

Lemma structural_checks_500 (b : Body) :
  structural_checks b = Some Error500 ->
  exists e : string, validatePalette (body_palette b) = Throw e.
Proof.
  unfold structural_checks.
  repeat match goal with
         | |- context [if ?c then _ else _] => destruct c
         end; try discriminate.
  all: destruct (validatePalette (body_palette b)) as [[|]|e]; try discriminate.
  all: try (intros _; now exists e).
  all: repeat match goal with
              | |- context [if ?c then _ else _] => destruct c
              end; discriminate.
Qed.

Lemma remix_stage_total (st : Store) (b : Body) (c : Result nat) :
  StoreValid st -> structural_checks b = None ->
  remix_stage st b = Compared c ->
  exists n : nat, c = Ret n /\ (n <= 1024)%nat.
Proof.
  intros Hst Hchecks Hstage.
  pose proof (remix_stage_cases st b) as Hcases. rewrite Hstage in Hcases.
  destruct Hcases as [_ (pid & orow & _ & Horow & ->)].
  destruct (Hst pid orow Horow) as [Hvalid _].
  destruct (RowValid_shape orow Hvalid) as (oitems & -> & _ & _ & Hogrid).
  destruct (structural_checks_passed b Hchecks) as (_ & _ & _ & Hpal & Hpix).
  destruct (valid_palette_items _ Hpal) as (items & Hitems & _ & _).
  rewrite Hitems in Hpix |- *. cbn [js_length] in Hpix.
  apply grid_of_check in Hpix.
  now apply computeChangeRatio_valid.
Qed.

(** X5: on a table of valid rows the remix loop always runs to its end and
    counts at most 1024 changed pixels; the creation handler answers 500
    only when converting a palette element throws, when the drawn id is
    already taken, when the author or title holds a character of code 0,
    or when [remix_of] is sent as a text that holds a character of code 0
    and names no row, so that the parent lookup fails.  No other submission
    can make it fail. *)
Theorem post_failure_causes (st st' : Store) (b : Body) (id now : string)
    (Hst : StoreValid st) :
  (forall c : Result nat,
     structural_checks b = None -> remix_stage st b = Compared c ->
     exists n : nat, c = Ret n /\ (n <= 1024)%nat)
  /\ (post_api_art st b id now = (Error500, st') ->
      (exists e : string, validatePalette (body_palette b) = Throw e)
      \/ is_Some (st !! id)
      \/ has_nul (string_of (body_author b))
         || has_nul (default "" (or_null (body_title b))) = true
      \/ (truthy (body_remix_of b) = true
          /\ exists pid : string,
               prepareValue (body_remix_of b) = Some pid
               /\ st !! pid = None /\ has_nul pid = true)).
Proof.
  split; [intros c; now apply remix_stage_total|].
  assert (Hins : insert_art st b id now = (Error500, st') ->
            is_Some (st !! id)
            \/ has_nul (string_of (body_author b))
               || has_nul (default "" (or_null (body_title b))) = true).
  { unfold insert_art. destruct (st !! id) as [row|]; [left; now eexists|].
    destruct (has_nul _ || has_nul _); [now right | discriminate]. }
  unfold post_api_art.
  destruct (structural_checks b) as [r|] eqn:Hchecks.
  - intros [= -> <-]. left. now apply structural_checks_500.
  - pose proof (remix_stage_cases st b) as Hcases.
    destruct (remix_stage st b) as [| | |c] eqn:Hstage.
    + intros H. right. destruct (Hins H) as [H1|H1]; [now left | right; now left].
    + intros _. right. right. right. exact Hcases.
    + discriminate.
    + destruct (remix_stage_total st b c Hst Hchecks Hstage) as [n [-> _]].
      destruct (remix_policy 32 n); [discriminate|].
      intros H. right. destruct (Hins H) as [H1|H1]; [now left | right; now left].
Qed.

Lemma post_failure_causes_witness :
  StoreValid ∅
  /\ post_api_art ∅ throwing_body "new" "now" = (Error500, ∅)
  /\ post_api_art ∅ nul_remix "new" "now" = (Error500, ∅)
  /\ ((exists e : string, validatePalette (body_palette throwing_body) = Throw e)
      \/ is_Some ((∅ : Store) !! "new")
      \/ has_nul (string_of (body_author throwing_body))
         || has_nul (default "" (or_null (body_title throwing_body))) = true
      \/ (truthy (body_remix_of throwing_body) = true
          /\ exists pid : string,
               prepareValue (body_remix_of throwing_body) = Some pid
               /\ (∅ : Store) !! pid = None /\ has_nul pid = true)).
Proof.
  assert (H : post_api_art ∅ throwing_body "new" "now" = (Error500, ∅))
    by reflexivity.
  split; [exact StoreValid_empty|]. split; [exact H|].
  split; [vm_compute; reflexivity|].
  destruct (post_failure_causes ∅ ∅ throwing_body "new" "now" StoreValid_empty)
    as [_ Hcause].
  exact (Hcause H).
Defined.

Lemma insert_art_created (st st' : Store) (b : Body) (id now m i : string)
    (rm : JValue) :
  insert_art st b id now = (Created201 m i rm, st') ->
  st !! id = None /\ st' = <[id := new_row b now]> st
  /\ i = id /\ rm = or_null_value (body_remix_of b).
Proof.
  unfold insert_art. destruct (st !! id) as [row|]; [discriminate|].
  destruct (has_nul _ || has_nul _); [discriminate|].
  intros [= _ <- <- <-]. now repeat split.
Qed.

Lemma post_created (st st' : Store) (b : Body) (id now m i : string)
    (rm : JValue) :
  post_api_art st b id now = (Created201 m i rm, st') ->
  structural_checks b = None
  /\ st !! id = None /\ st' = <[id := new_row b now]> st
  /\ i = id /\ rm = or_null_value (body_remix_of b).
Proof.
  unfold post_api_art.
  destruct (structural_checks b) as [r|] eqn:Hchecks.
  - intros [= -> <-]. apply structural_checks_rejects in Hchecks.
    discriminate Hchecks.
  - destruct (remix_stage st b) as [| | |[n|e]]; try discriminate.
    + intros H. split; [reflexivity|]. now apply insert_art_created in H.
    + destruct (remix_policy 32 n); [discriminate|].
      intros H. split; [reflexivity|]. now apply insert_art_created in H.
Qed.

(** The parent a row is stored with, from the field the 201 carries. *)
Lemma remix_param_or_null (v : JValue) :
  remix_param (or_null_value v) = remix_param v.
Proof.
  unfold remix_param, or_null_value. now destruct (truthy v) eqn:E; [rewrite E|].
Qed.

Lemma remix_param_nonempty (v : JValue) (pid : string) :
  remix_param v = Some pid -> String.eqb pid "" = false.
Proof.
  unfold remix_param. destruct (truthy v) eqn:Ht; [|discriminate].
  intros Hp. apply String.eqb_neq. now apply (prepareValue_nonempty v).
Qed.

(** X6: what POST /api/art stored is what GET /api/art/:id returns.  After
    a 201 the fetch of the returned id answers 200 with the submitted
    palette and grid unchanged, size 32, the submitted author, the given
    creation time, the remix parent of the 201 (as the text under which it
    was sent to the database) and a view count of 1. *)
Theorem created_art_is_fetched (st st' : Store) (b : Body)
    (id now m i : string) (rm : JValue)
    (Hpost : post_api_art st b id now = (Created201 m i rm, st')) :
  i = id
  /\ exists (art : ArtJson) (st'' : Store),
       get_api_art_id st' i = (Ok200Json art, st'')
       /\ art_id art = id
       /\ art_palette art = body_palette b
       /\ art_pixels art = body_pixels b
       /\ art_size art = 32%Z
       /\ JStr (art_author art) = body_author b
       /\ art_title art = or_null (body_title b)
       /\ art_created_at art = now
       /\ art_views art = 1%Z
       /\ art_remix_of art = remix_param rm
       /\ (forall s : string, rm = JStr s -> art_remix_of art = Some s)
       /\ (rm = JNull -> art_remix_of art = None)
       /\ st'' !! id = Some (increment_views (new_row b now)).
Proof.
  destruct (post_created _ _ _ _ _ _ _ _ Hpost) as (Hchecks & Hfresh & -> & -> & ->).
  split; [reflexivity|].
  destruct (structural_checks_passed b Hchecks) as ((a & Ha & _) & _).
  unfold get_api_art_id.
  rewrite (select_by_id_Some _ id (new_row b now)) by apply lookup_insert_eq.
  change (int4_max <? views (new_row b now) + 1)%Z with false.
  eexists _, _. split; [reflexivity|].
  cbn [art_id art_palette art_pixels art_size art_author art_title
       art_created_at art_views art_remix_of new_row author title size palette
       pixels created_at views remix_of].
  assert (Hr : match remix_param (body_remix_of b) with
               | Some pid => if String.eqb pid "" then None else Some pid
               | None => None
               end = remix_param (or_null_value (body_remix_of b))).
  { rewrite remix_param_or_null.
    destruct (remix_param (body_remix_of b)) as [pid|] eqn:E; [|reflexivity].
    now rewrite (remix_param_nonempty _ _ E). }
  repeat split.
  - now rewrite Ha.
  - exact Hr.
  - intros s Hs. rewrite Hr, Hs. unfold remix_param.
    unfold or_null_value in Hs. destruct (truthy (body_remix_of b)) eqn:Ht;
      [|discriminate Hs].
    rewrite Hs in Ht. now rewrite Ht.
  - intros Hn. now rewrite Hr, Hn.
  - now rewrite lookup_alter_eq, lookup_insert_eq.
Qed.

Lemma created_art_is_fetched_witness :
  post_api_art example_store half_remix "new" "now"
  = (Created201 "Remix published!" "new" (JStr "orig"),
     <["new" := new_row half_remix "now"]> example_store)
  /\ exists (art : ArtJson) (st'' : Store),
       get_api_art_id (<["new" := new_row half_remix "now"]> example_store) "new"
       = (Ok200Json art, st'')
       /\ art_pixels art = half_grid /\ art_views art = 1%Z
       /\ art_remix_of art = Some "orig".
Proof.
  assert (H : post_api_art example_store half_remix "new" "now"
              = (Created201 "Remix published!" "new" (JStr "orig"),
                 <["new" := new_row half_remix "now"]> example_store))
    by (vm_compute; reflexivity).
  split; [exact H|].
  destruct (created_art_is_fetched _ _ _ _ _ _ _ _ H)
    as (_ & art & st'' & Hf & _ & _ & Hp & _ & _ & _ & _ & Hv & _ & Hr & _).
  exists art, st''. repeat split; try assumption. now apply Hr.
Defined.

(** ** The change count of well-formed artworks *)

Lemma computeChangeRatio_cells (sz : Z) (opal opix pal pix : JValue)
    (ocolors colors : list string) :
  ArtworkSpec sz opal opix ocolors ->
  ArtworkSpec sz pal pix colors ->
  computeChangeRatio opal opix pal pix sz
  = Ret (changed_cells ocolors colors opix pix (Z.to_nat sz)).
Proof.
  intros Ho Hn. unfold computeChangeRatio, changed_cells.
  rewrite (foldM_sum _ (fun y => length (List.filter
             (differs ocolors colors opix pix y) (seq 0 (Z.to_nat sz))))).
  - reflexivity.
  - intros c y Hy. apply in_seq in Hy. apply foldM_count.
    intros x Hx. apply in_seq in Hx.
    destruct (cell_changed_spec sz opal opix pal pix ocolors colors y x Ho Hn)
      as (oc & nc & _ & _ & Hcell & Hd); [lia | lia |].
    now rewrite Hcell, Hd.
Qed.

Lemma filter_none {A : Type} (f : A -> bool) (l : list A) :
  (forall x, In x l -> f x = false) -> List.filter f l = [].
Proof.
  induction l as [|x l IH]; intros H; [reflexivity|].
  cbn [List.filter]. rewrite (H x) by now left.
  apply IH. intros; apply H; now right.
Qed.

Lemma sum_list_zero {A : Type} (w : A -> nat) (l : list A) :
  (forall x, In x l -> w x = 0%nat) -> sum_list (map w l) = 0%nat.
Proof.
  induction l as [|x l IH]; intros H; [reflexivity|].
  change (sum_list (map w (x :: l))) with (w x + sum_list (map w l))%nat.
  rewrite (H x) by now left. rewrite IH; [reflexivity|].
  intros; apply H; now right.
Qed.

Lemma changed_cells_same (colors : list string) (pix : JValue) (n : nat) :
  changed_cells colors colors pix pix n = 0%nat.
Proof.
  unfold changed_cells. apply sum_list_zero. intros y _.
  rewrite filter_none; [reflexivity|]. intros x _. unfold differs.
  rewrite bool_decide_eq_true_2; reflexivity.
Qed.

(** X7: submitting a well-formed stored artwork, palette and grid
    unchanged, as a remix of itself is always rejected with the no-change
    error, and the table stays as it was. *)
Theorem unchanged_remix_is_rejected (st : Store) (b : Body)
    (id now pid : string) (orow : Row) (colors : list string)
    (Hrow : st !! pid = Some orow)
    (Hart : ArtworkSpec 32 (palette orow) (pixels orow) colors)
    (Hchecks : structural_checks b = None)
    (Hremix : body_remix_of b = JStr pid) (Hpid : pid <> "")
    (Hpal : body_palette b = palette orow)
    (Hpix : body_pixels b = pixels orow) :
  computeChangeRatio (palette orow) (pixels orow) (body_palette b) (body_pixels b) 32
  = Ret 0%nat
  /\ post_api_art st b id now
     = (Error400 "No pixels changed. Make some modifications to remix!", st).
Proof.
  assert (Hcount : computeChangeRatio (palette orow) (pixels orow)
                     (body_palette b) (body_pixels b) 32 = Ret 0%nat).
  { rewrite Hpal, Hpix.
    rewrite (computeChangeRatio_cells 32 _ _ _ _ colors colors Hart Hart).
    now rewrite changed_cells_same. }
  split; [exact Hcount|].
  unfold post_api_art.
  rewrite Hchecks, (remix_stage_found st b pid orow Hremix Hpid Hrow), Hcount.
  reflexivity.
Qed.

Lemma original_artwork :
  ArtworkSpec 32 (palette original_row) (pixels original_row) example_colors.
Proof.
  split.
  - split; [reflexivity|]. split; [simpl; lia | exact example_colors_hex].
  - apply grid_of_check. vm_compute. reflexivity.
Defined.

Lemma unchanged_remix_is_rejected_witness :
  example_store !! "orig" = Some original_row
  /\ ArtworkSpec 32 (palette original_row) (pixels original_row) example_colors
  /\ structural_checks same_remix = None
  /\ post_api_art example_store same_remix "new" "now"
     = (Error400 "No pixels changed. Make some modifications to remix!",
        example_store).
Proof.
  assert (H1 : example_store !! "orig" = Some original_row)
    by (vm_compute; reflexivity).
  assert (H2 : structural_checks same_remix = None) by (vm_compute; reflexivity).
  split; [exact H1|]. split; [exact original_artwork|]. split; [exact H2|].
  apply (unchanged_remix_is_rejected example_store same_remix "new" "now" "orig"
           original_row example_colors H1 original_artwork H2);
    [reflexivity | discriminate | reflexivity | reflexivity].
Defined.

Lemma differs_sym (ocolors colors : list string) (opix pix : JValue) (y x : nat) :
  differs ocolors colors opix pix y x = differs colors ocolors pix opix y x.
Proof.
  unfold differs. f_equal.
  destruct (decide (resolved_color ocolors opix y x = resolved_color colors pix y x))
    as [E|E].
  - rewrite !bool_decide_eq_true_2; congruence.
  - rewrite !bool_decide_eq_false_2; congruence.
Qed.

(** X8: the change count is symmetric and bounded: between two
    well-formed artworks of the same side, going from the first to the
    second changes as many pixels as going back, and never more than
    side * side. *)
Theorem change_count_symmetric (sz : Z) (opal opix pal pix : JValue)
    (ocolors colors : list string)
    (Ho : ArtworkSpec sz opal opix ocolors)
    (Hn : ArtworkSpec sz pal pix colors) :
  exists n : nat,
    computeChangeRatio opal opix pal pix sz = Ret n
    /\ computeChangeRatio pal pix opal opix sz = Ret n
    /\ (Z.of_nat n <= sz * sz)%Z.
Proof.
  exists (changed_cells ocolors colors opix pix (Z.to_nat sz)).
  split; [now apply computeChangeRatio_cells|]. split.
  - rewrite (computeChangeRatio_cells sz pal pix opal opix colors ocolors Hn Ho).
    f_equal. unfold changed_cells. f_equal. apply map_ext. intros y.
    f_equal. apply List.filter_ext. intros x. apply differs_sym.
  - assert (Hsz : (0 <= sz)%Z).
    { destruct Ho as [_ (rows & _ & Hl & _)]. lia. }
    unfold changed_cells.
    assert (Hb : forall (l : list nat) (w : nat -> nat) (k : nat),
              (forall y, w y <= k)%nat ->
              (sum_list (map w l) <= length l * k)%nat).
    { induction l as [|y l IH]; intros w k Hw; [cbn; lia|].
      change (sum_list (map w (y :: l))) with (w y + sum_list (map w l))%nat.
      specialize (IH w k Hw). specialize (Hw y). cbn [length]. lia. }
    specialize (Hb (seq 0 (Z.to_nat sz))
                  (fun y => length (List.filter (differs ocolors colors opix pix y)
                                                (seq 0 (Z.to_nat sz))))
                  (Z.to_nat sz)).
    rewrite length_seq in Hb.
    assert (Hw : forall y, (length (List.filter (differs ocolors colors opix pix y)
                                      (seq 0 (Z.to_nat sz))) <= Z.to_nat sz)%nat).
    { intros y. etransitivity; [apply List.filter_length_le|].
      now rewrite length_seq. }
    specialize (Hb Hw). nia.
Qed.

Lemma change_count_symmetric_witness :
  ArtworkSpec 32 upper_palette zero_grid ["#FFFFFF"]
  /\ ArtworkSpec 32 lower_palette zero_grid ["#ffffff"]
  /\ exists n : nat,
       computeChangeRatio upper_palette zero_grid lower_palette zero_grid 32 = Ret n
       /\ computeChangeRatio lower_palette zero_grid upper_palette zero_grid 32 = Ret n.
Proof.
  split; [apply white_artworks|]. split; [apply white_artworks|].
  destruct (change_count_symmetric 32 upper_palette zero_grid lower_palette
              zero_grid ["#FFFFFF"] ["#ffffff"]) as (n & H1 & H2 & _);
    [apply white_artworks | apply white_artworks |].
  exists n. split; assumption.
Defined.

(** ** The density ramp *)

Lemma spec_ramp_index_bucket (r g b : Z) :
  (0 <= r + g + b <= 765)%Z -> spec_ramp_index r g b = ((r + g + b) / 85)%Z.
Proof.
  intros Hs. unfold spec_ramp_index.
  assert (H : forallb (fun i =>
              (Qfloor (inject_Z (Z.of_nat i) / (3 * 255)
                       * (inject_Z (Z.of_nat (length chars)) - 1))
               =? Z.of_nat i / 85)%Z) (seq 0 766) = true) by (vm_compute; reflexivity).
  apply (forallb_seq _ _ (Z.to_nat (r + g + b))) in H; [|lia].
  cbv beta in H. rewrite !Z2Nat.id in H by lia. now apply Z.eqb_eq in H.
Qed.

Lemma chars_lookup_ends (n : nat) :
  (n <= 9)%nat ->
  (chars !! n = Some "@" <-> n = 9%nat) /\ (chars !! n = Some " " <-> n = 0%nat).
Proof.
  intros Hn. do 10 (destruct n as [|n]; [split; split; (discriminate || reflexivity)|]).
  lia.
Qed.

(** X9: the character of a pixel depends only on the sum of the three
    channels of its colour: it is the ramp character number
    (R + G + B) div 85, so ['@'] is emitted for pure white only and the
    space for the colours whose channels sum to less than 85. *)
Theorem ascii_char_bucket (colors : list string) (p : JValue)
    (Hcolors : Forall HexColor colors)
    (Hp : IsIndex (Z.of_nat (length colors)) p) :
  exists (c : string) (r g b : Z),
    colors !! pixel_index p = Some c
    /\ rgb_channels c = Some (r, g, b)
    /\ ascii_char (map brightness_of colors) p
       = Ret (chars !! Z.to_nat ((r + g + b) / 85))
    /\ (ascii_char (map brightness_of colors) p = Ret (Some "@")
        <-> r = 255%Z /\ g = 255%Z /\ b = 255%Z)
    /\ (ascii_char (map brightness_of colors) p = Ret (Some " ")
        <-> (r + g + b < 85)%Z).
Proof.
  destruct (ascii_char_index colors p Hcolors Hp)
    as (c & r & g & b & Hc & Hch & Hrange & Hchar).
  assert (Hhex : HexColor c).
  { rewrite Forall_forall in Hcolors. apply Hcolors.
    eapply list_elem_of_lookup_2, Hc. }
  destruct (color_brightness_hex c Hhex) as (r' & g' & b' & Hch' & Hr & Hg & Hb & _).
  rewrite Hch in Hch'. injection Hch' as <- <- <-.
  rewrite spec_ramp_index_bucket in Hchar, Hrange by lia.
  exists c, r, g, b. split; [exact Hc|]. split; [exact Hch|]. split; [exact Hchar|].
  rewrite Hchar.
  destruct (chars_lookup_ends (Z.to_nat ((r + g + b) / 85))) as [Hat Hsp]; [lia|].
  assert (Hdiv : (85 * ((r + g + b) / 85) <= r + g + b
                  < 85 * ((r + g + b) / 85) + 85)%Z).
  { pose proof (Z.div_mod (r + g + b) 85 ltac:(lia)).
    pose proof (Z.mod_pos_bound (r + g + b) 85 ltac:(lia)). lia. }
  split.
  - split.
    + intros [= H]. apply Hat in H. lia.
    + intros (-> & -> & ->). reflexivity.
  - split.
    + intros [= H]. apply Hsp in H. lia.
    + intros Hlt. f_equal. apply Hsp. lia.
Qed.

Lemma ascii_char_bucket_witness :
  Forall HexColor example_colors
  /\ IsIndex (Z.of_nat (length example_colors)) (JNat 1)
  /\ exists (c : string) (r g b : Z),
       example_colors !! 1%nat = Some c
       /\ rgb_channels c = Some (r, g, b)
       /\ ascii_char (map brightness_of example_colors) (JNat 1)
          = Ret (chars !! Z.to_nat ((r + g + b) / 85)).
Proof.
  assert (Hp : IsIndex (Z.of_nat (length example_colors)) (JNat 1))
    by (apply JNat_index; simpl; lia).
  split; [exact example_colors_hex|]. split; [exact Hp|].
  destruct (ascii_char_bucket example_colors (JNat 1) example_colors_hex Hp)
    as (c & r & g & b & Hc & Hch & Hchar & _).
  exists c, r, g, b. repeat split; assumption.
Defined.

(** ** Grids and palettes *)

(** X10: a grid that is valid for a palette stays valid when the palette
    is extended: [validatePixels] is monotone in the palette length. *)
Theorem validatePixels_palette_extension (pix : JValue) (sz len len' : Z)
    (Hvalid : validatePixels pix sz len = true) (Hle : (len <= len')%Z) :
  validatePixels pix sz len' = true.
Proof.
  apply grid_of_check. apply grid_of_check in Hvalid.
  destruct Hvalid as (rows & -> & Hlen & Hrows).
  exists rows. split; [reflexivity|]. split; [exact Hlen|].
  eapply Forall_impl; [exact Hrows|].
  intros row (entries & -> & He & Hentries).
  exists entries. split; [reflexivity|]. split; [exact He|].
  eapply Forall_impl; [exact Hentries|].
  intros v (q & k & -> & Hq & Hk). exists q, k. repeat split; try assumption; lia.
Qed.

Lemma validatePixels_palette_extension_witness :
  validatePixels example_pixels 2 2 = true /\ (2 <= 5)%Z
  /\ validatePixels example_pixels 2 5 = true.
Proof.
  assert (H : validatePixels example_pixels 2 2 = true) by reflexivity.
  assert (Hle : (2 <= 5)%Z) by lia.
  split; [exact H|]. split; [exact Hle|].
  exact (validatePixels_palette_extension example_pixels 2 2 5 H Hle).
Defined.

(** ** Counting views *)

Lemma fetch_store (st : Store) (id : string) (row : Row) :
  st !! id = Some row -> (views row + 1 <= int4_max)%Z ->
  snd (get_api_art_id st id) = alter increment_views id st.
Proof.
  intros Hrow Hmax. unfold get_api_art_id.
  rewrite (select_by_id_Some st id row Hrow).
  destruct (Z.ltb_spec int4_max (views row + 1)) as [H|H]; [lia | reflexivity].
Qed.

(** X11: [n] successful fetches of one artwork add exactly [n] to its
    stored view count, as long as the count stays in the INTEGER range;
    nothing else of that row changes, no other row changes, and the next
    fetch reports the count plus one. *)
Theorem fetches_add_views (n : nat) (st : Store) (id : string) (row : Row)
    (Hrow : st !! id = Some row)
    (Hmax : (views row + Z.of_nat n <= int4_max)%Z) :
  run st (replicate n (ReqFetch id)) !! id
  = Some (mkRow (author row) (title row) (size row) (palette row) (pixels row)
            (created_at row) (views row + Z.of_nat n) (remix_of row))
  /\ (forall k : string,
        k <> id -> run st (replicate n (ReqFetch id)) !! k = st !! k)
  /\ ((views row + Z.of_nat n + 1 <= int4_max)%Z ->
      exists art : ArtJson,
        fst (get_api_art_id (run st (replicate n (ReqFetch id))) id) = Ok200Json art
        /\ art_views art = (views row + Z.of_nat n + 1)%Z).
Proof.
  assert (Hrun : run st (replicate n (ReqFetch id)) !! id
                 = Some (mkRow (author row) (title row) (size row) (palette row)
                           (pixels row) (created_at row)
                           (views row + Z.of_nat n) (remix_of row))
                 /\ forall k : string,
                      k <> id -> run st (replicate n (ReqFetch id)) !! k = st !! k).
  { revert st row Hrow Hmax. induction n as [|n IH]; intros st row Hrow Hmax.
    - cbn [replicate run fold_left]. split; [|reflexivity].
      rewrite Hrow, Z.add_0_r. now destruct row.
    - change (run st (replicate (S n) (ReqFetch id)))
        with (run (snd (get_api_art_id st id)) (replicate n (ReqFetch id))).
      rewrite (fetch_store st id row Hrow) by lia.
      destruct (IH (alter increment_views id st) (increment_views row)) as [Hid Hk].
      + now rewrite lookup_alter_eq, Hrow.
      + cbn [increment_views views]. lia.
      + split.
        * rewrite Hid. cbn [increment_views author title size palette pixels
                            created_at views remix_of].
          do 2 f_equal. lia.
        * intros k Hne. rewrite (Hk k Hne). now apply lookup_alter_ne. }
  destruct Hrun as [Hid Hk]. split; [exact Hid|]. split; [exact Hk|].
  intros Hnext. unfold get_api_art_id.
  rewrite (select_by_id_Some _ id _ Hid). cbn [views].
  destruct (Z.ltb_spec int4_max (views row + Z.of_nat n + 1)) as [H|H]; [lia|].
  eexists. split; reflexivity.
Qed.

Lemma fetches_add_views_witness :
  example_store !! "orig" = Some original_row
  /\ (views original_row + Z.of_nat 3 <= int4_max)%Z
  /\ run example_store (replicate 3 (ReqFetch "orig")) !! "orig"
     = Some (mkRow (author original_row) (title original_row) (size original_row)
               (palette original_row) (pixels original_row)
               (created_at original_row) (views original_row + Z.of_nat 3)
               (remix_of original_row)).
Proof.
  assert (H1 : example_store !! "orig" = Some original_row)
    by (vm_compute; reflexivity).
  assert (H2 : (views original_row + Z.of_nat 3 <= int4_max)%Z)
    by (vm_compute; discriminate).
  split; [exact H1|]. split; [exact H2|].
  exact (proj1 (fetches_add_views 3 example_store "orig" original_row H1 H2)).
Defined.

(** ** The three creation handlers *)

Lemma is_32_size (v : JValue) :
  is_32 v = true -> includes_size v = true /\ size_number v = 32%Z.
Proof.
  destruct v as [| | |[q|]| | |]; try discriminate. cbn [is_32].
  intros H. split.
  - cbn [includes_size validSizes existsb]. rewrite H.
    now rewrite !orb_true_r.
  - apply Qeq_bool_iff in H. now apply (Q_to_Z_inject q 32).
Qed.

(** X12: the three variants of POST /api/art agree on every submission of
    size 32: the four-size SQLite handler answers and stores exactly what
    the 32-only SQLite handler does, and so does the PostgreSQL handler
    when the submission declares no remix parent and its author and title
    hold no character of code 0. *)
Theorem creation_variants_agree (st : Store) (b : Body) (id now : string)
    (Hsize : is_32 (body_size b) = true) :
  post_api_art_sizes st b id now = post_api_art_sqlite st b id now
  /\ (truthy (body_remix_of b) = false ->
      has_nul (string_of (body_author b))
      || has_nul (default "" (or_null (body_title b))) = false ->
      post_api_art st b id now = post_api_art_sqlite st b id now).
Proof.
  destruct (is_32_size _ Hsize) as [Hinc Hnum]. split.
  - unfold post_api_art_sizes, post_api_art_sqlite.
    assert (Hsame : structural_checks_sizes b = structural_checks b).
    { unfold structural_checks_sizes, structural_checks.
      rewrite Hinc, Hsize, Hnum. reflexivity. }
    rewrite Hsame, Hnum. reflexivity.
  - intros Hfalsy Hnul. unfold post_api_art, post_api_art_sqlite, remix_stage.
    rewrite Hfalsy. destruct (structural_checks b); [reflexivity|].
    unfold insert_art, insert_art_sqlite, new_row, or_null_value.
    rewrite Hnul, Hfalsy, (remix_param_falsy _ Hfalsy). reflexivity.
Qed.

Lemma creation_variants_agree_witness :
  is_32 (body_size nested_body) = true
  /\ post_api_art_sizes ∅ nested_body "new" "now"
     = post_api_art_sqlite ∅ nested_body "new" "now".
Proof.
  assert (H : is_32 (body_size nested_body) = true) by reflexivity.
  split; [exact H|].
  exact (proj1 (creation_variants_agree ∅ nested_body "new" "now" H)).
Defined.

Lemma includes_size_cases (v : JValue) :
  includes_size v = true ->
  exists q : Q, v = JNum (Fin q)
    /\ (size_number v = 8 \/ size_number v = 16
        \/ size_number v = 32 \/ size_number v = 64)%Z.
Proof.
  destruct v as [| | |[q|]| | |]; try discriminate.
  cbn [includes_size validSizes existsb size_number]. intros H.
  exists q. split; [reflexivity|].
  repeat (apply orb_prop in H as [H|H]); try discriminate H;
    apply Qeq_bool_iff in H.
  - left. now apply (Q_to_Z_inject q 8).
  - right; left. now apply (Q_to_Z_inject q 16).
  - right; right; left. now apply (Q_to_Z_inject q 32).
  - right; right; right. now apply (Q_to_Z_inject q 64).
Qed.

(** X13: the four-size handler stores only sides 8, 16, 32 and 64, with a
    palette and a grid that pass the validators for the stored side; for
    each of these sides the SVG canvas has side 512 and the squares side
    512 / size. *)
Theorem sizes_variant_stores_valid (st st' : Store) (b : Body)
    (id now m i : string) (rm : JValue)
    (Hpost : post_api_art_sizes st b id now = (Created201 m i rm, st')) :
  exists row : Row,
    st' !! id = Some row
    /\ (size row = 8 \/ size row = 16 \/ size row = 32 \/ size row = 64)%Z
    /\ validatePalette (palette row) = Ret true
    /\ validatePixels (pixels row) (size row) (js_length (palette row)) = true
    /\ svg_canvasSize (size row) = 512%Z
    /\ svg_scale (size row) = (512 / size row)%Z
    /\ views row = 0%Z.
Proof.
  unfold post_api_art_sizes in Hpost.
  destruct (structural_checks_sizes b) as [r|] eqn:Hchecks.
  - exfalso. injection Hpost as -> _. revert Hchecks.
    unfold structural_checks_sizes.
    repeat match goal with
           | |- context [if ?c then _ else _] => destruct c
           end; try discriminate.
    all: destruct (validatePalette (body_palette b)) as [[|]|e]; try discriminate.
    all: repeat match goal with
                | |- context [if ?c then _ else _] => destruct c
                end; discriminate.
  - unfold insert_art_sqlite in Hpost.
    destruct (st !! id) as [old|]; [discriminate|].
    injection Hpost as _ _ _ <-.
    eexists. split; [apply lookup_insert_eq|].
    cbn [size palette pixels views].
    revert Hchecks. unfold structural_checks_sizes.
    destruct (_ || _ || _); [discriminate|].
    destruct (_ && _); [discriminate|].
    destruct (includes_size (body_size b)) eqn:Hinc; [|discriminate]. cbn [negb].
    destruct (validatePalette (body_palette b)) as [[|]|e]; try discriminate.
    cbv zeta.
    destruct (validatePixels (body_pixels b) (size_number (body_size b))
                (js_length (body_palette b))) eqn:Hpix; [|discriminate].
    intros _.
    destruct (includes_size_cases _ Hinc) as (q & _ & Hcases).
    split; [exact Hcases|]. split; [reflexivity|]. split; [reflexivity|].
    destruct Hcases as [-> | [-> | [-> | ->]]]; repeat split; reflexivity.
Qed.

Lemma sizes_variant_stores_valid_witness :
  post_api_art_sizes ∅ nested_body "new" "now"
  = (Created201 "Art created!" "new" JNull,
     snd (post_api_art_sizes ∅ nested_body "new" "now"))
  /\ exists row : Row,
       snd (post_api_art_sizes ∅ nested_body "new" "now") !! "new" = Some row
       /\ svg_canvasSize (size row) = 512%Z.
Proof.
  assert (H : post_api_art_sizes ∅ nested_body "new" "now"
              = (Created201 "Art created!" "new" JNull,
                 snd (post_api_art_sizes ∅ nested_body "new" "now")))
    by (vm_compute; reflexivity).
  split; [exact H|].
  destruct (sizes_variant_stores_valid _ _ _ _ _ _ _ _ H)
    as (row & Hrow & _ & _ & _ & Hc & _).
  exists row. split; assumption.
Defined.

(** ** Remixes and their parents *)

Lemma filter_all {A : Type} (f : A -> bool) (l : list A) :
  (forall x, In x l -> f x = true) -> List.filter f l = l.
Proof.
  induction l as [|x l IH]; intros H; [reflexivity|].
  cbn [List.filter]. rewrite (H x) by now left.
  f_equal. apply IH. intros; apply H; now right.
Qed.

(** X16: an artwork whose palette entries are all arrays (wrapped colour
    strings, which the palette check lets through) can never be remixed:
    arrays are never identical, so every one of the 1024 pixels counts as
    changed and every remix submission that passes the structural checks is
    answered with the too-many-pixels error. *)
Theorem wrapped_parent_cannot_be_remixed (st : Store) (b : Body)
    (id now pid : string) (orow : Row) (oitems : list JValue)
    (Hst : StoreValid st) (Hrow : st !! pid = Some orow)
    (Hpal : palette orow = JArr oitems)
    (Hwrapped : Forall (fun v => Array_isArray v = true) oitems)
    (Hchecks : structural_checks b = None)
    (Hremix : body_remix_of b = JStr pid) (Hpid : pid <> "") :
  computeChangeRatio (palette orow) (pixels orow) (body_palette b) (body_pixels b) 32
  = Ret 1024%nat
  /\ post_api_art st b id now
     = (Error400 ("Too many pixels changed. Remixes can only modify up to 50% "
                  +:+ "(512 pixels). You changed 1024."), st).
Proof.
  assert (Hcount : computeChangeRatio (palette orow) (pixels orow)
                     (body_palette b) (body_pixels b) 32 = Ret 1024%nat).
  { destruct (Hst pid orow Hrow) as [Hvalid _].
    destruct (RowValid_shape orow Hvalid) as (oitems' & Hpal' & _ & _ & Hogrid).
    rewrite Hpal in Hpal'. injection Hpal' as <-. rewrite Hpal.
    destruct (structural_checks_passed b Hchecks) as (_ & _ & _ & Hbpal & Hbpix).
    destruct (valid_palette_items _ Hbpal) as (items & Hitems & _ & _).
    rewrite Hitems in Hbpix |- *. cbn [js_length] in Hbpix.
    apply grid_of_check in Hbpix.
    unfold computeChangeRatio. change (Z.to_nat 32) with 32%nat.
    rewrite (foldM_sum _ (fun _ => 32%nat)); [reflexivity|].
    intros c y Hy. apply in_seq in Hy.
    rewrite (foldM_count _ (fun _ => true)).
    - rewrite filter_all by reflexivity. now rewrite length_seq.
    - intros x Hx. apply in_seq in Hx.
      destruct (resolve_valid 32 oitems (pixels orow) y x Hogrid)
        as [oi [Hoi Hor]]; [lia | lia |].
      destruct (resolve_valid 32 items (body_pixels b) y x Hbpix)
        as [ni [_ Hnr]]; [lia | lia |].
      unfold cell_changed. rewrite Hor, Hnr. cbn [bind].
      rewrite Forall_forall in Hwrapped.
      assert (Harr : Array_isArray oi = true)
        by (apply Hwrapped; eapply list_elem_of_lookup_2, Hoi).
      destruct oi; try discriminate Harr. reflexivity. }
  split; [exact Hcount|].
  unfold post_api_art.
  rewrite Hchecks, (remix_stage_found st b pid orow Hremix Hpid Hrow), Hcount.
  reflexivity.
Qed.

Lemma wrapped_parent_cannot_be_remixed_witness :
  StoreValid (run ∅ [ReqCreate nested_body "new" "now"])
  /\ run ∅ [ReqCreate nested_body "new" "now"] !! "new"
     = Some (new_row nested_body "now")
  /\ structural_checks nested_remix = None
  /\ post_api_art (run ∅ [ReqCreate nested_body "new" "now"]) nested_remix
       "other" "later"
     = (Error400 ("Too many pixels changed. Remixes can only modify up to 50% "
                  +:+ "(512 pixels). You changed 1024."),
        run ∅ [ReqCreate nested_body "new" "now"]).
Proof.
  destruct nested_store_valid as [Hst Hrow].
  assert (Hchecks : structural_checks nested_remix = None)
    by (vm_compute; reflexivity).
  split; [exact Hst|]. split; [exact Hrow|]. split; [exact Hchecks|].
  apply (wrapped_parent_cannot_be_remixed _ nested_remix "other" "later" "new"
           (new_row nested_body "now") [JArr [JStr "#000000"]] Hst Hrow);
    [reflexivity | repeat constructor | exact Hchecks | reflexivity | discriminate].
Defined.

(** X17: on a table of valid rows the fetch of a remix always reports its
    original: the parent row exists, so the [original] field of the answer
    is never null and carries the parent's id, author and title. *)
Theorem fetched_remix_shows_original (st : Store) (id pid : string) (row : Row)
    (Hst : StoreValid st) (Hrow : st !! id = Some row)
    (Hremix : remix_of row = Some pid)
    (Hmax : (views row + 1 <= int4_max)%Z) :
  exists (prow : Row) (art : ArtJson) (st' : Store),
    st !! pid = Some prow
    /\ get_api_art_id st id = (Ok200Json art, st')
    /\ art_remix_of art = Some pid
    /\ art_original art = Some (pid, author prow, title prow).
Proof.
  destruct (Hst id row Hrow) as [_ Href].
  destruct (Href pid Hremix) as (Hne & Hself & [prow Hprow]).
  exists prow. unfold get_api_art_id.
  rewrite (select_by_id_Some st id row Hrow), Hremix.
  destruct (Z.ltb_spec int4_max (views row + 1)) as [H|_]; [lia|].
  assert (E : String.eqb pid "" = false) by now apply String.eqb_neq.
  eexists _, _. split; [exact Hprow|]. split; [reflexivity|].
  cbn [art_remix_of art_original mbind option_bind]. rewrite E.
  rewrite lookup_alter_ne by congruence. rewrite Hprow. now split.
Qed.

Lemma remixed_store_valid :
  StoreValid remixed_store
  /\ remixed_store !! "new" = Some (new_row half_remix "t1").
Proof.
  split; [apply run_valid, StoreValid_empty | vm_compute; reflexivity].
Defined.

Lemma fetched_remix_shows_original_witness :
  StoreValid remixed_store
  /\ remixed_store !! "new" = Some (new_row half_remix "t1")
  /\ remix_of (new_row half_remix "t1") = Some "orig"
  /\ exists (prow : Row) (art : ArtJson) (st' : Store),
       remixed_store !! "orig" = Some prow
       /\ get_api_art_id remixed_store "new" = (Ok200Json art, st')
       /\ art_original art = Some ("orig", author prow, title prow).
Proof.
  destruct remixed_store_valid as [Hst Hrow].
  assert (Hremix : remix_of (new_row half_remix "t1") = Some "orig") by reflexivity.
  split; [exact Hst|]. split; [exact Hrow|]. split; [exact Hremix|].
  destruct (fetched_remix_shows_original remixed_store "new" "orig" _ Hst Hrow Hremix)
    as (prow & art & st' & Hp & Hf & _ & Ho); [vm_compute; discriminate|].
  exists prow, art, st'. repeat split; assumption.
Defined.
